(** * TAD pathways: build_custom_tad_genelist

    A shallow embedding of [scripts/build_custom_tad_genelist.py] and the
    properties of its TAD lookup, nearest-gene selection, accumulation loop
    and output stage.

    Conventions of the embedding.
    - A pandas column of integers is a list of [Z]; a cell that pandas would
      hold as NaN is [None] in a column of [option Z].
    - A DataFrame whose index matters is a list of (label, row) pairs, in row
      order; where the index is the default 0..n-1 the list position is the
      label.
    - A Python exception is a value of [py_error]; code that can raise
      returns [result].
    - Cells of the input tables are present values: the chromosome, RSid and
      group of a SNP are strings and its position an integer. *)

From Stdlib Require Import List ZArith String Ascii Bool Lia Arith.
From Stdlib Require Import Permutation Sorted.
Import ListNotations.

Local Open Scope string_scope.
Local Open Scope Z_scope.

(** ** Exceptions *)

Inductive py_error : Type :=
| NameError (name : string)
| TypeError
| KeyError (lbl : nat)
| ValueError (expected given : nat).

Definition result (A : Type) : Type := (py_error + A)%type.

Definition ok {A : Type} (a : A) : result A := inr a.
Definition raise {A : Type} (e : py_error) : result A := inl e.

Definition bind {A B : Type} (m : result A) (k : A -> result B) : result B :=
  match m with
  | inl e => inl e
  | inr a => k a
  end.

Notation "x <- m ;; k" := (bind m (fun x => k))
  (at level 61, m at next level, right associativity).

(** ** Data model *)

(** One row of the TAD-to-gene index table ([tad_genes_df]).  The columns
    are the eleven that remain of the thirteen names assigned to
    [results_df.columns] once [custom_snp] and [group] are taken out. *)
Record tad_gene : Type := {
  TAD_end : Z;
  TAD_id : string;
  TAD_start : Z;
  chromosome : string;
  db : string;
  gene_name : string;
  gene_type : string;
  start : Z;
  stop : Z;
  strand : string;
  type : string
}.

(** One row of the SNP table ([snp_df]); only the columns the script reads. *)
Record snp_row : Type := {
  snp : string;
  chrom : string;
  position : Z;
  group : string
}.

(** A row of [results_df]: a TAD-gene row with the two assigned columns. *)
Record result_row : Type := {
  tad_row : tad_gene;
  custom_snp : string;
  row_group : string
}.

(** A row of [nearest_gene_df]: columns gene, snp, group. *)
Record nearest_row : Type := {
  gene : string;
  near_snp : string;
  near_group : string
}.

(** ** Python and pandas primitives *)

(** [s[n:]] on a string. *)
Fixpoint slice_from (n : nat) (s : string) : string :=
  match n, s with
  | O, _ => s
  | S _, EmptyString => EmptyString
  | S n', String _ s' => slice_from n' s'
  end.

(** [s[:n]] on a string. *)
Fixpoint slice_to (n : nat) (s : string) : string :=
  match n, s with
  | O, _ => EmptyString
  | S _, EmptyString => EmptyString
  | S n', String a s' => String a (slice_to n' s')
  end.

(** A [for] loop whose body may raise: the state is threaded through the
    iterations and the first exception ends the loop. *)
Fixpoint for_each {A St : Type} (body : A -> St -> result St)
    (l : list A) (st : St) : result St :=
  match l with
  | [] => ok st
  | a :: l' => st' <- body a st ;; for_each body l' st'
  end.

Module Pandas.

(** Elementwise [&] of two boolean columns of the same frame. *)
Fixpoint mask_and (a b : list bool) : list bool :=
  match a, b with
  | x :: a', y :: b' => (x && y) :: mask_and a' b'
  | _, _ => []
  end.

(** [df[mask]]: the rows whose mask entry is [True], in row order. *)
Fixpoint select {A : Type} (mask : list bool) (rows : list A) : list A :=
  match mask, rows with
  | m :: mask', r :: rows' =>
      if m then r :: select mask' rows' else select mask' rows'
  | _, _ => []
  end.

(** A frame or series with an explicit index. *)
Definition frame (A : Type) : Type := list (nat * A).

(** [reset_index(drop=True)]: labels become 0..n-1. *)
Definition reset_index {A : Type} (rows : list A) : frame A :=
  combine (seq 0%nat (List.length rows)) rows.

(** [Series.unique()]: distinct values in order of first appearance. *)
Fixpoint unique (l : list string) : list string :=
  match l with
  | [] => []
  | x :: l' => x :: filter (fun y => negb (String.eqb x y)) (unique l')
  end.

(** What [Series.sort_values()] guarantees of its result: the same
    (label, value) entries, in ascending order of value.  The default
    algorithm is numpy's quicksort, which fixes no order among equal
    values, so nothing more is assumed of it. *)
Definition sorts_values (sort : frame Z -> frame Z) : Prop :=
  forall s : frame Z,
    Permutation s (sort s)
    /\ StronglySorted (fun a b => snd a <= snd b) (sort s).

(** Insertion sort, the algorithm numpy runs on short arrays. *)
Fixpoint insert_value (x : nat * Z) (s : frame Z) : frame Z :=
  match s with
  | [] => [x]
  | y :: s' => if snd x <? snd y then x :: y :: s'
               else y :: insert_value x s'
  end.

Fixpoint insertion_sort (s : frame Z) : frame Z :=
  match s with
  | [] => []
  | x :: s' => insert_value x (insertion_sort s')
  end.

(** The value a series holds at a label, NaN ([None]) when the label is
    absent. *)
Definition at_label (l : nat) (s : frame Z) : option Z :=
  match find (fun e => Nat.eqb (fst e) l) s with
  | Some e => Some (snd e)
  | None => None
  end.

(** [left.join(right)] of two one-column frames: a left join on the
    index, rows in the order of [left].  The script joins frames whose
    labels are distinct, so each row of [left] gives one row. *)
Definition join (left right : frame Z) : frame (option Z * option Z) :=
  map (fun e => (fst e, (Some (snd e), at_label (fst e) right))) left.

(** Minimum of two cells, NaN skipped. *)
Definition cell_min (a b : option Z) : option Z :=
  match a, b with
  | Some x, Some y => Some (Z.min x y)
  | Some x, None => Some x
  | None, _ => b
  end.

(** [Series.min()]: NaN when nothing is left after skipping NaN. *)
Definition series_min (s : list (option Z)) : option Z :=
  fold_right cell_min None s.

(** [df.min()] of a two-column frame: one minimum per column. *)
Definition frame_min (d : frame (option Z * option Z)) : list (option Z) :=
  [ series_min (map (fun e => fst (snd e)) d);
    series_min (map (fun e => snd (snd e)) d) ].

(** [cell == m]: never true of a NaN on either side. *)
Definition cell_eqb (c m : option Z) : bool :=
  match c, m with
  | Some x, Some y => x =? y
  | _, _ => false
  end.

(** [df[df == m].dropna(thresh=1).index]: the labels of the rows that
    keep at least one cell, in row order. *)
Definition labels_equal_to (m : option Z)
    (d : frame (option Z * option Z)) : list nat :=
  map fst
    (filter (fun e => cell_eqb (fst (snd e)) m || cell_eqb (snd (snd e)) m)
            d).

(** Columns of [a.append(b)]: the union of both column sets.  The order
    of the union differs between pandas versions; the script relies on
    its length when it renames the columns. *)
Definition append_columns (a b : list string) : list string :=
  a ++ filter (fun c => negb (existsb (String.eqb c) a)) b.

(** [df.columns = names]: the number of names must be the number of
    columns. *)
Definition set_columns (names old : list string) : result (list string) :=
  if Nat.eqb (List.length names) (List.length old) then ok names
  else raise (ValueError (List.length old) (List.length names)).

End Pandas.

Module PosixPath.

(** [s.rfind(c)] for a one-character [c]: the last index, or -1. *)
Fixpoint rfind_from (c : ascii) (s : string) (i found : Z) : Z :=
  match s with
  | EmptyString => found
  | String a s' =>
      rfind_from c s' (i + 1) (if Ascii.eqb a c then i else found)
  end.

Definition rfind (c : ascii) (s : string) : Z := rfind_from c s 0 (-1).

(** The [while] loop of [genericpath._splitext]: [n] is the number of
    iterations left, [dotIndex - filenameIndex]. *)
Fixpoint skip_leading_dots (p : string) (dotIndex : Z) (n : nat)
    (filenameIndex : Z) : string * string :=
  match n with
  | O => (p, EmptyString)
  | S n' =>
      match String.get (Z.to_nat filenameIndex) p with
      | Some "."%char =>
          skip_leading_dots p dotIndex n' (filenameIndex + 1)
      | _ => (slice_to (Z.to_nat dotIndex) p,
              slice_from (Z.to_nat dotIndex) p)
      end
  end.

(** [os.path.splitext(p)]. *)
Definition splitext (p : string) : string * string :=
  let sepIndex := rfind "/"%char p in
  let dotIndex := rfind "."%char p in
  if dotIndex >? sepIndex then
    let filenameIndex := sepIndex + 1 in
    skip_leading_dots p dotIndex (Z.to_nat (dotIndex - filenameIndex))
                      filenameIndex
  else (p, EmptyString).

(** [os.path.join(a, b)] for a relative [b] and a non-empty [a] that does
    not end in a separator. *)
Definition join (a b : string) : string := a ++ "/" ++ b.

End PosixPath.

(** ** The TAD membership lookup *)

(** [assign_custom_snp_to_tad(snp_signal, tad_boundary)].  The three
    comparisons give three boolean columns, joined by [&]; the selected rows
    are re-indexed from zero, so the result is the plain list of rows. *)
Definition assign_custom_snp_to_tad
    (snp_signal : snp_row) (tad_boundary : list tad_gene) : list tad_gene :=
  let chrom_ := slice_from 3 (chrom snp_signal) in
  let snp_loc := position snp_signal in
  Pandas.select
    (Pandas.mask_and
       (Pandas.mask_and
          (map (fun r => String.eqb (chromosome r) chrom_) tad_boundary)
          (map (fun r => TAD_start r <=? snp_loc) tad_boundary))
       (map (fun r => TAD_end r >? snp_loc) tad_boundary))
    tad_boundary.

(** The row-wise reading of the lookup's mask. *)
Definition in_tad (s : snp_row) (r : tad_gene) : bool :=
  String.eqb (chromosome r) (slice_from 3 (chrom s))
  && (TAD_start r <=? position s)
  && (TAD_end r >? position s).

(** ** Nearest protein-coding gene *)

Definition is_protein_coding (r : tad_gene) : bool :=
  String.eqb (gene_type r) "protein_coding".

Section NearestGene.

Variable sort_values : Pandas.frame Z -> Pandas.frame Z.

(** [tad_assignment[tad_assignment['gene_type'] == 'protein_coding']]:
    the rows keep the labels they have in [tad_assignment]. *)
Definition protein_coding (tad_assignment : list tad_gene)
    : Pandas.frame tad_gene :=
  filter (fun e => is_protein_coding (snd e))
         (Pandas.reset_index tad_assignment).

(** [(frame.col - position).abs()] as a labelled series. *)
Definition abs_distance (col : tad_gene -> Z) (pos : Z)
    (f : Pandas.frame tad_gene) : Pandas.frame Z :=
  map (fun e => (fst e, Z.abs (col (snd e) - pos))) f.

(** The frame of start and stop distances; its rows follow the sorted
    start distances. *)
Definition dist_df (tad_assignment : list tad_gene) (pos : Z)
    : Pandas.frame (option Z * option Z) :=
  let pc := protein_coding tad_assignment in
  Pandas.join (sort_values (abs_distance start pos pc))
              (sort_values (abs_distance stop pos pc)).

(** [dist_df.min().min()]. *)
Definition min_distance (tad_assignment : list tad_gene) (pos : Z)
    : option Z :=
  Pandas.series_min (Pandas.frame_min (dist_df tad_assignment pos)).

Definition near_gene_idx (tad_assignment : list tad_gene) (pos : Z)
    : list nat :=
  Pandas.labels_equal_to (min_distance tad_assignment pos)
                         (dist_df tad_assignment pos).

(** The value bound to [nearest_gene]; [tad_assignment.ix[i]] raises on a
    label the frame does not have. *)
Definition nearest_gene (tad_assignment : list tad_gene) (pos : Z)
    : result string :=
  match near_gene_idx tad_assignment pos with
  | [] => ok EmptyString
  | i :: _ =>
      match nth_error tad_assignment i with
      | Some r => ok (gene_name r)
      | None => raise (KeyError i)
      end
  end.

End NearestGene.

(** ** The accumulation loop *)

(** [results_df]: its column names and its rows. *)
Record results_frame : Type := {
  columns : list string;
  rows : list result_row
}.

(** The two accumulating tables. *)
Record tables : Type := {
  results_df : results_frame;
  nearest_gene_df : list nearest_row
}.

(** Modelled from the spec: the index file [GENE_index_hg19_<label>.tsv.bz2]
    is not among the sources.  Its columns are the fields of the TAD-gene
    record, under the names the script reads ([chromosome], [TAD_start],
    [TAD_end], [gene_type], [gene_name], [start], [stop]) and renames. *)
Definition tad_genes_columns : list string :=
  ["TAD_end"; "TAD_id"; "TAD_start"; "chromosome"; "db"; "gene_name";
   "gene_type"; "start"; "stop"; "strand"; "type"].

Definition initial_tables : tables :=
  {| results_df := {| columns := tad_genes_columns ++ ["group"]; rows := [] |};
     nearest_gene_df := [] |}.

(** [tad_assignment.assign(custom_snp=...).assign(group=...)] on one row. *)
Definition annotate (s : snp_row) (g : string) (r : tad_gene) : result_row :=
  {| tad_row := r; custom_snp := snp s; row_group := g |}.

Section MainLoop.

Variable sort_values : Pandas.frame Z -> Pandas.frame Z.
Variable tad_genes_df : list tad_gene.

(** The body of the inner loop, for one SNP of one group.  The lookup
    reads [int(position)] and the distances [position] itself; on the
    integer positions of the table they are the same number. *)
Definition process_snp (g : string) (snp_series : snp_row) (st : tables)
    : result tables :=
  let tad_assignment := assign_custom_snp_to_tad snp_series tad_genes_df in
  if negb (Nat.eqb (List.length tad_assignment) 0) then
    name <- nearest_gene sort_values tad_assignment (position snp_series) ;;
    ok {| results_df :=
            {| columns :=
                 Pandas.append_columns
                   (columns (results_df st))
                   (tad_genes_columns ++ ["custom_snp"; "group"]);
               rows := rows (results_df st)
                       ++ map (annotate snp_series g) tad_assignment |};
          nearest_gene_df :=
            nearest_gene_df st
            ++ [ {| gene := name; near_snp := snp snp_series;
                    near_group := g |} ] |}
  else ok st.

(** The body of the outer loop, for one group. *)
Definition process_group (snp_df : list snp_row) (g : string) (st : tables)
    : result tables :=
  let snp_sub_df := filter (fun s => String.eqb (group s) g) snp_df in
  for_each (process_snp g) snp_sub_df st.

Definition main_loop (snp_df : list snp_row) : result tables :=
  for_each (process_group snp_df)
           (Pandas.unique (map group snp_df))
           initial_tables.

End MainLoop.

(** ** Output *)

Inductive table_body : Type :=
| ResultsBody (body : list result_row)
| NearestBody (body : list nearest_row).

(** One call of [to_csv]: the path, the header names, whether the index
    column is written, and the rows. *)
Record written_file : Type := {
  path : string;
  header : list string;
  with_index : bool;
  body : table_body
}.

Definition output_nearest_gene_file (output_file : string) : string :=
  fst (PosixPath.splitext output_file) ++ "_nearest_gene.tsv".

Definition nearest_header : list string := ["MAPPED_GENE"; "snp"; "group"].

Definition results_header : list string :=
  ["TADEnd"; "TADidx"; "TADStart"; "chrom"; "custom_snp"; "db"; "gene_name";
   "gene_type"; "group"; "start"; "stop"; "strand"; "type"].

(** The statements after the loop: both renames, then both [to_csv]. *)
Definition write_outputs (output_file : string) (st : tables)
    : result (list written_file) :=
  near_cols <- Pandas.set_columns nearest_header ["gene"; "snp"; "group"] ;;
  res_cols <- Pandas.set_columns results_header (columns (results_df st)) ;;
  ok [ {| path := output_file; header := res_cols; with_index := false;
          body := ResultsBody (rows (results_df st)) |};
       {| path := output_nearest_gene_file output_file; header := near_cols;
          with_index := true;
          body := NearestBody (nearest_gene_df st) |} ].

(** The script from the loop on, with both tables loaded. *)
Definition build_genelist (sort_values : Pandas.frame Z -> Pandas.frame Z)
    (tad_genes_df : list tad_gene) (snp_df : list snp_row)
    (output_file : string) : result (list written_file) :=
  st <- main_loop sort_values tad_genes_df snp_df ;;
  write_outputs output_file st.

(** ** The script's top level *)

(** [args], the namespace of parsed flags. *)
Record arguments : Type := {
  snp_data_file : string;
  output_file : string;
  TAD_Boundary : string
}.

(** A module-level value: a string, or an object the script never reads
    as one (a module, the parser, the namespace, a function). *)
Inductive py_value : Type :=
| PyStr (s : string)
| PyObject.

(** The names bound at module level when the index file name is built, in
    the order of their binding. *)
Definition globals_at_load (args : arguments) : list (string * py_value) :=
  [ ("os", PyObject); ("argparse", PyObject); ("pd", PyObject);
    ("parser", PyObject); ("args", PyObject);
    ("assign_custom_snp_to_tad", PyObject);
    ("snp_data_file", PyStr (snp_data_file args));
    ("output_file", PyStr (output_file args));
    ("output_nearest_gene_file",
     PyStr (output_nearest_gene_file (output_file args))) ].

(** Reading a global name. *)
Definition load_name (name : string) (globals : list (string * py_value))
    : result py_value :=
  match find (fun b => String.eqb (fst b) name) globals with
  | Some b => ok (snd b)
  | None => raise (NameError name)
  end.

(** ["GENE_index_hg19_" + tad_cell + ".tsv.bz2"]. *)
Definition index_file (args : arguments) : result string :=
  tad_cell <- load_name "tad_cell" (globals_at_load args) ;;
  match tad_cell with
  | PyStr c => ok ("GENE_index_hg19_" ++ c ++ ".tsv.bz2")
  | PyObject => raise TypeError
  end.

(** The whole script; [read_tad] and [read_snp] stand for [pd.read_table]
    on the two inputs. *)
Definition script (sort_values : Pandas.frame Z -> Pandas.frame Z)
    (read_tad : string -> list tad_gene) (read_snp : string -> list snp_row)
    (args : arguments) : result (list written_file) :=
  name <- index_file args ;;
  let tad_genes_df := read_tad (PosixPath.join "data" name) in
  let snp_df := read_snp (snp_data_file args) in
  build_genelist sort_values tad_genes_df snp_df (output_file args).

(** ** Reference readings of the specification *)

(** The distance of a gene to a position: the smaller of the distances to
    its two ends. *)
Definition gene_distance (pos : Z) (r : tad_gene) : Z :=
  Z.min (Z.abs (start r - pos)) (Z.abs (stop r - pos)).

(** The tie rule in the specification's words: the earliest row of the
    matched subset, in its input order, among the protein-coding rows at
    the minimum distance. *)
Definition first_encountered_nearest (tad_assignment : list tad_gene)
    (pos : Z) : option tad_gene :=
  let m :=
    Pandas.series_min
      (map (fun r => Some (gene_distance pos r))
           (filter is_protein_coding tad_assignment)) in
  find (fun r => is_protein_coding r
                 && Pandas.cell_eqb (Some (gene_distance pos r)) m)
       tad_assignment.

(** The chromosome test in the specification's words: the prefix is taken
    off the table's chromosome and the rest compared with the SNP's. *)
Definition in_tad_table_side_stripped (s : snp_row) (r : tad_gene) : bool :=
  String.eqb (slice_from 3 (chromosome r)) (chrom s)
  && (TAD_start r <=? position s)
  && (TAD_end r >? position s).

(** Rows of the distance frame ordered by their start distance. *)
Definition start_cell_le (e1 e2 : nat * (option Z * option Z)) : Prop :=
  exists a b, fst (snd e1) = Some a /\ fst (snd e2) = Some b /\ a <= b.

(** A row of the distance frame reaches the value [m] in one of its two
    columns. *)
Definition reaches (m : option Z) (e : nat * (option Z * option Z)) : bool :=
  Pandas.cell_eqb (fst (snd e)) m || Pandas.cell_eqb (snd (snd e)) m.

(** The test of the loop body: the lookup returned at least one row. *)
Definition matched (tad_genes_df : list tad_gene) (s : snp_row) : bool :=
  negb (Nat.eqb (List.length (assign_custom_snp_to_tad s tad_genes_df)) 0).

(** The columns of [results_df] before and after the first append. *)
Definition columns_before_append : list string :=
  tad_genes_columns ++ ["group"].

Definition columns_after_append : list string :=
  Pandas.append_columns columns_before_append
                        (tad_genes_columns ++ ["custom_snp"; "group"]).

(** The (group, SNP) pairs in the order the two loops visit them. *)
Definition visits (snp_df : list snp_row) : list (string * snp_row) :=
  flat_map
    (fun g => map (pair g) (filter (fun s => String.eqb (group s) g) snp_df))
    (Pandas.unique (map group snp_df)).

(** The RSid and group a row of [nearest_gene_df] was written for. *)
Definition near_key (n : nearest_row) : string * string :=
  (near_snp n, near_group n).

(** [results_df] has the wider column set once a row has been appended. *)
Definition columns_track_appends (st : tables) : Prop :=
  columns (results_df st)
  = if Nat.eqb (List.length (nearest_gene_df st)) 0
    then columns_before_append else columns_after_append.

(** What a run of loop iterations over the pairs [vs] does to the two
    tables. *)
Definition loop_effect (tad_genes_df : list tad_gene)
    (vs : list (string * snp_row)) (st st' : tables) : Prop :=
  map near_key (nearest_gene_df st')
  = (map near_key (nearest_gene_df st)
     ++ map (fun v => (snp (snd v), fst v))
            (filter (fun v => matched tad_genes_df (snd v)) vs))%list
  /\ rows (results_df st')
     = (rows (results_df st)
        ++ flat_map
             (fun v => map (annotate (snd v) (fst v))
                           (assign_custom_snp_to_tad (snd v) tad_genes_df))
             vs)%list
  /\ (columns_track_appends st -> columns_track_appends st').

(** The row of [nearest_gene_df] written at the visit [v]: the RSid of
    its SNP, the group of the iteration and the gene selected for it. *)
Definition nearest_row_for (sort_values : Pandas.frame Z -> Pandas.frame Z)
    (tad_genes_df : list tad_gene) (v : string * snp_row) (n : nearest_row)
    : Prop :=
  near_snp n = snp (snd v)
  /\ near_group n = fst v
  /\ nearest_gene sort_values
       (assign_custom_snp_to_tad (snd v) tad_genes_df) (position (snd v))
     = ok (gene n).

(** The rows a run of iterations over [vs] adds to [nearest_gene_df]. *)
Definition nearest_rows_added (sort_values : Pandas.frame Z -> Pandas.frame Z)
    (tad_genes_df : list tad_gene) (vs : list (string * snp_row))
    (st st' : tables) : Prop :=
  exists new,
    nearest_gene_df st' = (nearest_gene_df st ++ new)%list
    /\ Forall2 (nearest_row_for sort_values tad_genes_df)
               (filter (fun v => matched tad_genes_df (snd v)) vs) new.

(** ** Sample data *)

Definition mk_gene (chr : string) (tstart tend : Z) (tid : string)
    (name gtype : string) (gstart gstop : Z) : tad_gene :=
  {| TAD_end := tend; TAD_id := tid; TAD_start := tstart; chromosome := chr;
     db := "ENSEMBL"; gene_name := name; gene_type := gtype;
     start := gstart; stop := gstop; strand := "+"; type := "gene" |}.

Definition mk_snp (rsid chr : string) (pos : Z) (g : string) : snp_row :=
  {| snp := rsid; chrom := chr; position := pos; group := g |}.

(** The example of the specification: one TAD on chromosome 1. *)
Definition gene_A : tad_gene :=
  mk_gene "1" 100 200 "TAD1" "A" "protein_coding" 110 190.

Definition snp_150 : snp_row := mk_snp "rs1" "chr1" 150 "trait".

(** Two protein-coding genes of one TAD, both ten bases from position 150:
    [near_stop] by its stop, [near_start] by its start. *)
Definition near_stop : tad_gene :=
  mk_gene "1" 0 1000 "TAD1" "near_stop" "protein_coding" 100 140.

Definition near_start : tad_gene :=
  mk_gene "1" 0 1000 "TAD1" "near_start" "protein_coding" 160 300.

(** A gene that is not protein coding. *)
Definition lnc_gene : tad_gene :=
  mk_gene "1" 100 200 "TAD1" "L" "lincRNA" 120 130.

(** Two overlapping TADs on chromosome 2. *)
Definition overlap_far : tad_gene :=
  mk_gene "2" 0 500 "TAD7" "far" "protein_coding" 10 20.

Definition overlap_near : tad_gene :=
  mk_gene "2" 400 900 "TAD8" "near" "protein_coding" 440 600.

Definition snp_450 : snp_row := mk_snp "rs2" "chr2" 450 "trait".

(** A SNP on a chromosome the table does not cover. *)
Definition snp_nowhere : snp_row := mk_snp "rs3" "chr9" 150 "trait".

Definition sample_args : arguments :=
  {| snp_data_file := "snps.tsv"; output_file := "results/genes.tsv";
     TAD_Boundary := "hESC" |}.

(** * Properties *)

(** ** Error monad *)

Lemma bind_ok {A B : Type} (a : A) (k : A -> result B) :
  bind (ok a) k = k a.
Proof. reflexivity. Qed.

Lemma for_each_app {A St : Type} (body : A -> St -> result St)
    (l1 l2 : list A) (st : St) :
  for_each body (l1 ++ l2) st
  = bind (for_each body l1 st) (for_each body l2).
Proof.
  revert st; induction l1 as [|a l1 IH]; intros st; simpl; [reflexivity|].
  destruct (body a st) as [e|st']; simpl; [reflexivity | apply IH].
Qed.

(** ** The lookup as a filter *)

Lemma mask_and_map {A : Type} (f g : A -> bool) (l : list A) :
  Pandas.mask_and (map f l) (map g l) = map (fun r => f r && g r) l.
Proof.
  induction l as [|r l IH]; simpl; [reflexivity | now rewrite IH].
Qed.

Lemma select_map {A : Type} (f : A -> bool) (l : list A) :
  Pandas.select (map f l) l = filter f l.
Proof.
  induction l as [|r l IH]; simpl; [reflexivity|].
  destruct (f r); now rewrite IH.
Qed.

Lemma assign_custom_snp_to_tad_filter (s : snp_row) (tads : list tad_gene) :
  assign_custom_snp_to_tad s tads = filter (in_tad s) tads.
Proof.
  unfold assign_custom_snp_to_tad.
  rewrite !mask_and_map.
  apply select_map.
Qed.

Lemma in_tad_spec (s : snp_row) (r : tad_gene) :
  in_tad s r = true <->
  chromosome r = slice_from 3 (chrom s)
  /\ TAD_start r <= position s /\ position s < TAD_end r.
Proof.
  unfold in_tad.
  rewrite !andb_true_iff, String.eqb_eq, Z.leb_le, Z.gtb_ltb, Z.ltb_lt.
  tauto.
Qed.

Lemma filter_nil_iff {A : Type} (f : A -> bool) (l : list A) :
  filter f l = [] <-> forall x, In x l -> f x = false.
Proof.
  induction l as [|a l IH]; simpl.
  - split; [intros _ x [] | reflexivity].
  - destruct (f a) eqn:Ea.
    + split; [discriminate|].
      intros H. specialize (H a (or_introl eq_refl)). congruence.
    + rewrite IH. split.
      * intros H x [<-|Hx]; auto.
      * intros H x Hx. apply H. now right.
Qed.

(** C1: the lookup returns exactly the rows of the table, in table order,
    whose chromosome matches the SNP's and whose TAD interval contains the
    position half-open ([TAD_start <= p < TAD_end]); a row whose [TAD_end]
    is the position is left out, and the result is empty exactly when no
    row satisfies the condition. *)
Theorem C1_lookup_is_half_open_membership
    (s : snp_row) (tads : list tad_gene) :
  assign_custom_snp_to_tad s tads = filter (in_tad s) tads
  /\ (forall r, In r (assign_custom_snp_to_tad s tads) <->
                In r tads
                /\ chromosome r = slice_from 3 (chrom s)
                /\ TAD_start r <= position s /\ position s < TAD_end r)
  /\ (forall r, position s = TAD_end r ->
                ~ In r (assign_custom_snp_to_tad s tads))
  /\ (assign_custom_snp_to_tad s tads = [] <->
      forall r, In r tads ->
                ~ (chromosome r = slice_from 3 (chrom s)
                   /\ TAD_start r <= position s /\ position s < TAD_end r)).
Proof.
  rewrite assign_custom_snp_to_tad_filter.
  assert (Hin : forall r, In r (filter (in_tad s) tads) <->
                In r tads
                /\ chromosome r = slice_from 3 (chrom s)
                /\ TAD_start r <= position s /\ position s < TAD_end r).
  { intros r. rewrite filter_In, in_tad_spec. tauto. }
  split; [reflexivity|]. split; [exact Hin|]. split; [|split].
  - intros r Hend Hr. apply Hin in Hr. lia.
  - intros Hnil r Hr Hc.
    rewrite filter_nil_iff in Hnil. specialize (Hnil r Hr).
    apply in_tad_spec in Hc. congruence.
  - intros Hnone. apply filter_nil_iff. intros r Hr.
    destruct (in_tad s r) eqn:E; [|reflexivity].
    exfalso. apply (Hnone r Hr). now apply in_tad_spec.
Qed.

(** C8, as the claim words it, fails: with the table's chromosome written
    [1] and the SNP's [chr1] the lookup returns the row, while stripping
    the table's field and comparing with the SNP's selects nothing; with
    the two spellings exchanged it is the other way round. *)
Lemma C8_table_side_strip_counterexample :
  assign_custom_snp_to_tad snp_150 [gene_A] = [gene_A]
  /\ filter (in_tad_table_side_stripped snp_150) [gene_A] = []
  /\ assign_custom_snp_to_tad
       (mk_snp "rs1" "1" 150 "trait")
       [mk_gene "chr1" 100 200 "TAD1" "A" "protein_coding" 110 190] = []
  /\ filter (in_tad_table_side_stripped (mk_snp "rs1" "1" 150 "trait"))
       [mk_gene "chr1" 100 200 "TAD1" "A" "protein_coding" 110 190]
     = [mk_gene "chr1" 100 200 "TAD1" "A" "protein_coding" 110 190].
Proof. repeat split. Qed.

(** C8, amended: the lookup compares the table's chromosome field, as it
    is, with the SNP's chromosome field after its first three characters
    are dropped, whatever they are; a SNP chromosome of fewer than three
    characters is compared as the empty string. *)
Theorem C8_snp_side_prefix_dropped
    (rsid g : string) (pos : Z) (tads : list tad_gene) :
  (forall (c1 c2 c3 : ascii) (rest : string),
     assign_custom_snp_to_tad
       (mk_snp rsid (String c1 (String c2 (String c3 rest))) pos g) tads
     = filter (fun r => String.eqb (chromosome r) rest
                        && (TAD_start r <=? pos) && (TAD_end r >? pos))
              tads)
  /\ (forall c : string,
        (String.length c < 3)%nat ->
        assign_custom_snp_to_tad (mk_snp rsid c pos g) tads
        = filter (fun r => String.eqb (chromosome r) EmptyString
                           && (TAD_start r <=? pos) && (TAD_end r >? pos))
                 tads).
Proof.
  split.
  - intros c1 c2 c3 rest. now rewrite assign_custom_snp_to_tad_filter.
  - intros c Hc. rewrite assign_custom_snp_to_tad_filter.
    assert (Hs : slice_from 3 c = EmptyString).
    { destruct c as [|a [|b [|d c]]]; simpl in *; try reflexivity; lia. }
    unfold in_tad, mk_snp; cbn [chrom position]. now rewrite Hs.
Qed.

Lemma C8_snp_side_prefix_dropped_witness :
  assign_custom_snp_to_tad (mk_snp "rs1" "X" 150 "trait") [gene_A]
  = filter (fun r => String.eqb (chromosome r) EmptyString
                     && (TAD_start r <=? 150) && (TAD_end r >? 150))
           [gene_A].
Proof.
  apply (proj2 (C8_snp_side_prefix_dropped "rs1" "trait" 150 [gene_A])).
  simpl. lia.
Defined.

(** ** Sorting *)

Lemma insert_value_perm (x : nat * Z) (s : Pandas.frame Z) :
  Permutation (x :: s) (Pandas.insert_value x s).
Proof.
  induction s as [|y s IH]; simpl; [constructor; constructor|].
  destruct (snd x <? snd y); [apply Permutation_refl|].
  eapply perm_trans; [apply perm_swap|]. now constructor.
Qed.

Lemma insert_value_sorted (x : nat * Z) (s : Pandas.frame Z) :
  StronglySorted (fun a b => snd a <= snd b) s ->
  StronglySorted (fun a b => snd a <= snd b) (Pandas.insert_value x s).
Proof.
  induction 1 as [|y s Hs IH Hy]; simpl.
  - repeat constructor.
  - destruct (snd x <? snd y) eqn:E.
    + apply Z.ltb_lt in E. constructor; [now constructor|].
      constructor; [lia|].
      eapply Forall_impl; [|exact Hy]. simpl; intros; lia.
    + apply Z.ltb_ge in E. constructor; [exact IH|].
      eapply Permutation_Forall; [apply insert_value_perm|].
      now constructor.
Qed.

Lemma insertion_sort_sorts_values : Pandas.sorts_values Pandas.insertion_sort.
Proof.
  intros s; induction s as [|x s [IHp IHs]]; simpl.
  - split; constructor.
  - split.
    + eapply perm_trans; [|apply insert_value_perm]. now constructor.
    + now apply insert_value_sorted.
Qed.

(** In a sorted list the first element a filter keeps is below every
    other element it keeps. *)
Lemma filter_head_least {A : Type} (R : A -> A -> Prop) (f : A -> bool)
    (l : list A) (x : A) (t : list A) :
  StronglySorted R l ->
  filter f l = x :: t ->
  forall y, In y t -> R x y.
Proof.
  induction 1 as [|a l Hl IH Ha]; simpl; [discriminate|].
  destruct (f a) eqn:Ea.
  - intros [= -> <-] y Hy. apply filter_In in Hy.
    rewrite Forall_forall in Ha. now apply Ha.
  - exact IH.
Qed.

Lemma StronglySorted_map {A B : Type} (R : B -> B -> Prop) (g : A -> B)
    (l : list A) :
  StronglySorted (fun a b => R (g a) (g b)) l ->
  StronglySorted R (map g l).
Proof.
  induction 1 as [|a l Hl IH Ha]; simpl; constructor; [exact IH|].
  rewrite Forall_map. exact Ha.
Qed.

(** ** Labelled frames *)

Lemma combine_seq_In {A : Type} (l : list A) (a i : nat) (r : A) :
  In (i, r) (combine (seq a (List.length l)) l) <->
  (a <= i)%nat /\ nth_error l (i - a) = Some r.
Proof.
  revert a; induction l as [|x l IH]; intros a; simpl.
  - split; [intros [] | intros [_ H]].
    destruct (i - a)%nat; discriminate.
  - rewrite IH. split.
    + intros [[= <- <-] | [Hle Hn]].
      * split; [lia|]. now rewrite Nat.sub_diag.
      * split; [lia|].
        replace (i - a)%nat with (S (i - S a)) by lia. exact Hn.
    + intros [Hle Hn].
      destruct (i - a)%nat as [|k] eqn:Ek.
      * left. simpl in Hn. injection Hn as ->. f_equal. lia.
      * right. split; [lia|].
        replace (i - S a)%nat with k by lia. exact Hn.
Qed.

Lemma reset_index_In {A : Type} (l : list A) (i : nat) (r : A) :
  In (i, r) (Pandas.reset_index l) <-> nth_error l i = Some r.
Proof.
  unfold Pandas.reset_index. rewrite combine_seq_In, Nat.sub_0_r.
  split; [tauto | split; [lia | assumption]].
Qed.

Lemma combine_seq_labels {A : Type} (l : list A) (a : nat) :
  map fst (combine (seq a (List.length l)) l) = seq a (List.length l).
Proof.
  revert a; induction l as [|x l IH]; intros a; simpl;
    [reflexivity | now rewrite IH].
Qed.

Lemma NoDup_labels_filter {A : Type} (f : nat * A -> bool)
    (l : Pandas.frame A) :
  NoDup (map fst l) -> NoDup (map fst (filter f l)).
Proof.
  induction l as [|x l IH]; simpl; [auto|].
  intros H. inversion H as [|? ? Hx Hl]; subst.
  destruct (f x); [|now apply IH].
  simpl. constructor; [|now apply IH].
  intros Hin. apply Hx.
  apply in_map_iff in Hin as [y [Hy Hin]].
  apply filter_In in Hin as [Hin _].
  apply in_map_iff. now exists y.
Qed.

Lemma at_label_In (s : Pandas.frame Z) (l : nat) (v : Z) :
  NoDup (map fst s) -> In (l, v) s -> Pandas.at_label l s = Some v.
Proof.
  unfold Pandas.at_label.
  induction s as [|[k w] s IH]; simpl; [intros _ []|].
  intros Hnd Hin. inversion Hnd as [|? ? Hk Hs]; subst.
  destruct (Nat.eqb k l) eqn:E.
  - apply Nat.eqb_eq in E; subst k.
    destruct Hin as [[= ->] | Hin]; [reflexivity|].
    exfalso. apply Hk. apply in_map_iff. now exists (l, v).
  - destruct Hin as [[= -> ->] | Hin].
    + rewrite Nat.eqb_refl in E. discriminate.
    + now apply IH.
Qed.

(** ** Minima with NaN skipped *)

Lemma series_min_None (l : list (option Z)) :
  Pandas.series_min l = None <-> forall c, In c l -> c = None.
Proof.
  induction l as [|c l IH]; simpl.
  - split; [intros _ c [] | reflexivity].
  - destruct c as [x|]; simpl.
    + split.
      * destruct (Pandas.series_min l); discriminate.
      * intros H. specialize (H (Some x) (or_introl eq_refl)). discriminate.
    + rewrite IH. split.
      * intros H c [<-|Hc]; auto.
      * intros H c Hc. apply H. now right.
Qed.

Lemma series_min_Some (l : list (option Z)) (m : Z) :
  Pandas.series_min l = Some m ->
  In (Some m) l /\ forall x, In (Some x) l -> m <= x.
Proof.
  revert m; induction l as [|c l IH]; intros m; simpl; [discriminate|].
  destruct c as [x|]; simpl.
  - destruct (Pandas.series_min l) as [y|] eqn:Ey; intros [= <-].
    + destruct (IH y eq_refl) as [Hy Hle]. split.
      * destruct (Z.min_spec x y) as [[_ ->] | [_ ->]]; auto.
      * intros z [[= <-] | Hz]; [lia|].
        specialize (Hle z Hz). lia.
    + split; [now left|].
      intros z [[= <-] | Hz]; [lia|].
      rewrite series_min_None in Ey. specialize (Ey _ Hz). discriminate.
  - intros Hm. destruct (IH m Hm) as [Hy Hle]. split; [now right|].
    intros z [Hz | Hz]; [discriminate | now apply Hle].
Qed.

Lemma series_min_exists (l : list (option Z)) (x : Z) :
  In (Some x) l -> exists m, Pandas.series_min l = Some m.
Proof.
  intros Hx. destruct (Pandas.series_min l) as [m|] eqn:E; [now exists m|].
  rewrite series_min_None in E. specialize (E _ Hx). discriminate.
Qed.

(** ** The distance frame *)

Lemma StronglySorted_weaken {A : Type} (R R' : A -> A -> Prop) (l : list A) :
  (forall a b, R a b -> R' a b) ->
  StronglySorted R l -> StronglySorted R' l.
Proof.
  intros HR; induction 1 as [|a l Hl IH Ha]; constructor; [exact IH|].
  eapply Forall_impl; [|exact Ha]. auto.
Qed.

Lemma abs_distance_labels (col : tad_gene -> Z) (pos : Z)
    (f : Pandas.frame tad_gene) :
  map fst (abs_distance col pos f) = map fst f.
Proof.
  unfold abs_distance. rewrite map_map. reflexivity.
Qed.

Lemma abs_distance_In (col : tad_gene -> Z) (pos : Z)
    (f : Pandas.frame tad_gene) (i : nat) (v : Z) :
  In (i, v) (abs_distance col pos f) <->
  exists r, In (i, r) f /\ v = Z.abs (col r - pos).
Proof.
  unfold abs_distance. rewrite in_map_iff. split.
  - intros [[j r] [[= <- <-] Hin]]. now exists r.
  - intros [r [Hin ->]]. now exists (i, r).
Qed.

Lemma protein_coding_In (ta : list tad_gene) (i : nat) (r : tad_gene) :
  In (i, r) (protein_coding ta) <->
  nth_error ta i = Some r /\ is_protein_coding r = true.
Proof.
  unfold protein_coding. rewrite filter_In, reset_index_In. reflexivity.
Qed.

Lemma protein_coding_labels (ta : list tad_gene) :
  NoDup (map fst (protein_coding ta)).
Proof.
  apply NoDup_labels_filter. unfold Pandas.reset_index.
  rewrite combine_seq_labels. apply seq_NoDup.
Qed.

Lemma nth_error_functional {A : Type} (l : list A) (i : nat) (x y : A) :
  nth_error l i = Some x -> nth_error l i = Some y -> x = y.
Proof. congruence. Qed.

Lemma cell_eqb_Some (c : option Z) (m : Z) :
  Pandas.cell_eqb c (Some m) = true <-> c = Some m.
Proof.
  destruct c as [x|]; simpl.
  - rewrite Z.eqb_eq. split; congruence.
  - split; discriminate.
Qed.

Section DistanceFrame.

Variable sort_values : Pandas.frame Z -> Pandas.frame Z.
Hypothesis sort_values_ok : Pandas.sorts_values sort_values.

Lemma sort_values_In (s : Pandas.frame Z) (e : nat * Z) :
  In e (sort_values s) <-> In e s.
Proof.
  destruct (sort_values_ok s) as [Hp _]. split.
  - apply Permutation_in. now apply Permutation_sym.
  - now apply Permutation_in.
Qed.

Lemma sort_values_labels (s : Pandas.frame Z) :
  NoDup (map fst s) -> NoDup (map fst (sort_values s)).
Proof.
  destruct (sort_values_ok s) as [Hp _].
  apply Permutation_NoDup. now apply Permutation_map.
Qed.

Lemma sort_values_nil : sort_values [] = [].
Proof.
  destruct (sort_values_ok []) as [Hp _].
  now apply Permutation_nil.
Qed.

(** Each row of [dist_df] carries the two distances of one protein-coding
    row of the matched set, under that row's label, and each such row has
    its row in [dist_df]. *)
Lemma dist_df_In (ta : list tad_gene) (pos : Z)
    (e : nat * (option Z * option Z)) :
  In e (dist_df sort_values ta pos) <->
  exists r, nth_error ta (fst e) = Some r
            /\ is_protein_coding r = true
            /\ snd e = (Some (Z.abs (start r - pos)),
                        Some (Z.abs (stop r - pos))).
Proof.
  unfold dist_df, Pandas.join. rewrite in_map_iff. split.
  - intros [[i v] [<- Hin]]. simpl.
    apply sort_values_In, abs_distance_In in Hin as [r [Hr ->]].
    exists r. pose proof Hr as Hpc. apply protein_coding_In in Hpc.
    destruct Hpc as [Hn Hp]. repeat split; try assumption.
    f_equal. f_equal. apply at_label_In.
    + apply sort_values_labels. rewrite abs_distance_labels.
      apply protein_coding_labels.
    + apply sort_values_In, abs_distance_In. now exists r.
  - intros [r [Hn [Hp He]]]. destruct e as [i c]. simpl in *. subst c.
    assert (Hr : In (i, r) (protein_coding ta))
      by now apply protein_coding_In.
    exists (i, Z.abs (start r - pos)). simpl. split.
    + f_equal. f_equal. apply at_label_In.
      * apply sort_values_labels. rewrite abs_distance_labels.
        apply protein_coding_labels.
      * apply sort_values_In, abs_distance_In. now exists r.
    + apply sort_values_In, abs_distance_In. now exists r.
Qed.

Lemma dist_df_sorted (ta : list tad_gene) (pos : Z) :
  StronglySorted start_cell_le (dist_df sort_values ta pos).
Proof.
  unfold dist_df, Pandas.join. apply StronglySorted_map.
  destruct (sort_values_ok (abs_distance start pos (protein_coding ta)))
    as [_ Hs].
  eapply StronglySorted_weaken; [|exact Hs].
  intros a b Hab. exists (snd a), (snd b). simpl. auto.
Qed.

(** Without protein-coding rows the distance frame has no rows. *)
Lemma dist_df_nil (ta : list tad_gene) (pos : Z) :
  (forall r, In r ta -> is_protein_coding r = false) ->
  dist_df sort_values ta pos = [].
Proof.
  intros Hno.
  destruct (dist_df sort_values ta pos) as [|e d] eqn:E; [reflexivity|].
  assert (He : In e (dist_df sort_values ta pos))
    by (rewrite E; now left).
  apply dist_df_In in He as [r [Hn [Hp _]]].
  apply nth_error_In in Hn. rewrite (Hno r Hn) in Hp. discriminate.
Qed.

(** The global minimum of the distance frame is the least gene distance
    among the protein-coding rows, and some row has it. *)
Lemma min_distance_spec (ta : list tad_gene) (pos : Z)
    (i0 : nat) (r0 : tad_gene) :
  nth_error ta i0 = Some r0 ->
  is_protein_coding r0 = true ->
  exists m,
    min_distance sort_values ta pos = Some m
    /\ (forall i r, nth_error ta i = Some r ->
                    is_protein_coding r = true ->
                    m <= gene_distance pos r)
    /\ (exists e, In e (dist_df sort_values ta pos)
                  /\ reaches (Some m) e = true).
Proof.
  intros Hn0 Hp0. unfold min_distance, Pandas.frame_min.
  set (d := dist_df sort_values ta pos).
  set (c1 := map (fun e => fst (snd e)) d).
  set (c2 := map (fun e => snd (snd e)) d).
  assert (Hrow : forall i r, nth_error ta i = Some r ->
                   is_protein_coding r = true ->
                   In (Some (Z.abs (start r - pos))) c1
                   /\ In (Some (Z.abs (stop r - pos))) c2).
  { intros i r Hn Hp.
    assert (He : In (i, (Some (Z.abs (start r - pos)),
                         Some (Z.abs (stop r - pos)))) d).
    { apply dist_df_In. now exists r. }
    split; apply in_map_iff; eexists; (split; [|exact He]); reflexivity. }
  destruct (Hrow i0 r0 Hn0 Hp0) as [H1 H2].
  destruct (series_min_exists c1 _ H1) as [a Ha].
  destruct (series_min_exists c2 _ H2) as [b Hb].
  destruct (series_min_Some c1 a Ha) as [Ha_in Ha_le].
  destruct (series_min_Some c2 b Hb) as [Hb_in Hb_le].
  rewrite Ha, Hb. simpl. exists (Z.min a b). split; [reflexivity|]. split.
  - intros i r Hn Hp. destruct (Hrow i r Hn Hp) as [Hs He].
    specialize (Ha_le _ Hs). specialize (Hb_le _ He).
    unfold gene_distance. lia.
  - destruct (Z.min_spec a b) as [[_ ->] | [_ ->]].
    + apply in_map_iff in Ha_in as [e [He Hin]]. exists e.
      split; [exact Hin|]. unfold reaches. rewrite He. simpl.
      now rewrite Z.eqb_refl.
    + apply in_map_iff in Hb_in as [e [He Hin]]. exists e.
      split; [exact Hin|]. unfold reaches. rewrite He. simpl.
      rewrite Z.eqb_refl. apply orb_true_r.
Qed.

(** The selection, when the matched set has a protein-coding row: the
    first label kept is that of a protein-coding row at the least gene
    distance, and no other such row has a smaller start distance. *)
Lemma nearest_gene_selected (ta : list tad_gene) (pos : Z)
    (i0 : nat) (r0 : tad_gene) :
  nth_error ta i0 = Some r0 ->
  is_protein_coding r0 = true ->
  exists (i : nat) (rest : list nat) (sel : tad_gene),
    near_gene_idx sort_values ta pos = i :: rest
    /\ nth_error ta i = Some sel
    /\ is_protein_coding sel = true
    /\ nearest_gene sort_values ta pos = ok (gene_name sel)
    /\ min_distance sort_values ta pos = Some (gene_distance pos sel)
    /\ (forall j r, nth_error ta j = Some r ->
                    is_protein_coding r = true ->
                    gene_distance pos sel <= gene_distance pos r)
    /\ (forall j r, nth_error ta j = Some r ->
                    is_protein_coding r = true ->
                    gene_distance pos r = gene_distance pos sel ->
                    Z.abs (start sel - pos) <= Z.abs (start r - pos)).
Proof.
  intros Hn0 Hp0.
  destruct (min_distance_spec ta pos i0 r0 Hn0 Hp0)
    as [m [Hm [Hle [e1 [He1 Hr1]]]]].
  unfold nearest_gene, near_gene_idx, Pandas.labels_equal_to.
  rewrite Hm. fold (reaches (Some m)).
  set (d := dist_df sort_values ta pos) in *.
  destruct (filter (reaches (Some m)) d) as [|e0 t] eqn:Ef.
  { assert (H : In e1 (filter (reaches (Some m)) d))
      by (apply filter_In; now split).
    rewrite Ef in H. destruct H. }
  assert (He0 : In e0 (filter (reaches (Some m)) d))
    by (rewrite Ef; now left).
  apply filter_In in He0 as [He0 Hr0].
  apply dist_df_In in He0 as [sel [Hns [Hps Hcells]]].
  assert (Hdsel : gene_distance pos sel = m).
  { specialize (Hle _ _ Hns Hps). unfold gene_distance in *.
    unfold reaches in Hr0. rewrite Hcells in Hr0. simpl in Hr0.
    apply orb_true_iff in Hr0 as [H|H]; apply Z.eqb_eq in H; lia. }
  exists (fst e0), (map fst t), sel. simpl. rewrite Hns, Hdsel.
  repeat split; try assumption.
  intros j r Hn Hp Hd.
  set (e := (j, (Some (Z.abs (start r - pos)),
                 Some (Z.abs (stop r - pos))))).
  assert (He : In e (filter (reaches (Some m)) d)).
  { apply filter_In. split.
    - apply dist_df_In. now exists r.
    - unfold reaches, e. simpl. unfold gene_distance in Hd.
      apply orb_true_iff.
      destruct (Z.min_spec (Z.abs (start r - pos)) (Z.abs (stop r - pos)))
        as [[_ Hmin] | [_ Hmin]]; [left | right]; apply Z.eqb_eq; lia. }
  rewrite Ef in He. destruct He as [He | He].
  - assert (Hc : snd e0 = snd e) by now rewrite He.
    rewrite Hcells in Hc. unfold e in Hc. simpl in Hc.
    injection Hc as Hs _. lia.
  - pose proof (filter_head_least start_cell_le (reaches (Some m)) d e0 t
                  (dist_df_sorted ta pos) Ef e He) as [a [b [Ha [Hb Hab]]]].
    rewrite Hcells in Ha. unfold e in Hb. simpl in Ha, Hb.
    injection Ha as <-. injection Hb as <-. exact Hab.
Qed.

End DistanceFrame.

(** ** Groups *)

Lemma unique_In (l : list string) (x : string) :
  In x (Pandas.unique l) <-> In x l.
Proof.
  induction l as [|y l IH]; simpl; [reflexivity|].
  rewrite filter_In, IH, negb_true_iff. split.
  - intros [H | [H _]]; auto.
  - intros [H | H]; [now left|].
    destruct (String.eqb y x) eqn:E.
    + left. now apply String.eqb_eq.
    + right. now split.
Qed.

Lemma unique_NoDup (l : list string) : NoDup (Pandas.unique l).
Proof.
  induction l as [|y l IH]; simpl; constructor.
  - rewrite filter_In, negb_true_iff, String.eqb_refl.
    intros [_ H]. discriminate.
  - now apply NoDup_filter.
Qed.

Lemma filter_split_perm {A : Type} (f : A -> bool) (l : list A) :
  Permutation l (filter f l ++ filter (fun x => negb (f x)) l).
Proof.
  induction l as [|a l IH]; simpl; [constructor|].
  destruct (f a); simpl.
  - now constructor.
  - now apply Permutation_cons_app.
Qed.

Lemma filter_filter_group (g g' : string) (l : list snp_row) :
  g <> g' ->
  filter (fun s => String.eqb (group s) g')
         (filter (fun s => negb (String.eqb (group s) g)) l)
  = filter (fun s => String.eqb (group s) g') l.
Proof.
  intros Hne. induction l as [|s l IH]; simpl; [reflexivity|].
  destruct (String.eqb (group s) g) eqn:Eg; simpl.
  - apply String.eqb_eq in Eg.
    destruct (String.eqb (group s) g') eqn:Eg'; [|exact IH].
    apply String.eqb_eq in Eg'. congruence.
  - now rewrite IH.
Qed.

(** Taking the SNPs group by group, over distinct groups that cover the
    table, visits every row of the table exactly once. *)
Lemma group_partition (gs : list string) (l : list snp_row) :
  NoDup gs ->
  (forall s, In s l -> In (group s) gs) ->
  Permutation
    (flat_map (fun g => filter (fun s => String.eqb (group s) g) l) gs) l.
Proof.
  revert l; induction gs as [|g gs IH]; intros l Hnd Hcov; simpl.
  - destruct l as [|s l]; [constructor|].
    destruct (Hcov s (or_introl eq_refl)).
  - inversion Hnd as [|? ? Hg Hgs]; subst.
    eapply perm_trans;
      [|apply Permutation_sym,
          (filter_split_perm (fun s => String.eqb (group s) g))].
    apply Permutation_app_head.
    set (l' := filter (fun s => negb (String.eqb (group s) g)) l).
    assert (Heq : flat_map
                    (fun g' => filter (fun s => String.eqb (group s) g') l) gs
                  = flat_map
                      (fun g' => filter (fun s => String.eqb (group s) g') l')
                      gs).
    { clear IH Hnd Hgs Hcov. induction gs as [|g' gs IHgs]; simpl; [reflexivity|].
      unfold l' at 1. rewrite filter_filter_group.
      - f_equal. apply IHgs. intros H. apply Hg. now right.
      - intros ->. apply Hg. now left. }
    rewrite Heq. apply IH; [assumption|].
    intros s Hs. unfold l' in Hs. apply filter_In in Hs as [Hs Hng].
    destruct (Hcov s Hs) as [Hsg | H]; [|exact H].
    cbv beta in Hng. rewrite <- Hsg, String.eqb_refl in Hng. discriminate.
Qed.

Lemma Permutation_filter_length {A : Type} (f : A -> bool) (l l' : list A) :
  Permutation l l' ->
  List.length (filter f l) = List.length (filter f l').
Proof.
  induction 1 as [|a l l' H IH|a b l|l l' l'' H1 IH1 H2 IH2]; simpl.
  - reflexivity.
  - destruct (f a); simpl; congruence.
  - destruct (f a), (f b); reflexivity.
  - congruence.
Qed.

Lemma filter_flat_map {A B : Type} (f : B -> bool) (F : A -> list B)
    (l : list A) :
  filter f (flat_map F l) = flat_map (fun a => filter f (F a)) l.
Proof.
  induction l as [|a l IH]; simpl; [reflexivity|].
  now rewrite filter_app, IH.
Qed.

(** ** The loop *)

Lemma loop_effect_nil (tads : list tad_gene) (st : tables) :
  loop_effect tads [] st st.
Proof.
  unfold loop_effect; simpl. rewrite !app_nil_r. auto.
Qed.

Lemma loop_effect_app (tads : list tad_gene)
    (v1 v2 : list (string * snp_row)) (st st1 st2 : tables) :
  loop_effect tads v1 st st1 ->
  loop_effect tads v2 st1 st2 ->
  loop_effect tads (v1 ++ v2) st st2.
Proof.
  intros [K1 [R1 T1]] [K2 [R2 T2]]. unfold loop_effect.
  rewrite K2, K1, R2, R1, filter_app, map_app, flat_map_app, !app_assoc.
  auto.
Qed.

Lemma matched_false_iff (tads : list tad_gene) (s : snp_row) :
  matched tads s = false <-> assign_custom_snp_to_tad s tads = [].
Proof.
  unfold matched. rewrite negb_false_iff, Nat.eqb_eq. split.
  - apply length_zero_iff_nil.
  - intros ->. reflexivity.
Qed.

Lemma process_snp_unmatched (sort_values : Pandas.frame Z -> Pandas.frame Z)
    (tads : list tad_gene) (g : string) (s : snp_row) (st : tables) :
  assign_custom_snp_to_tad s tads = [] ->
  process_snp sort_values tads g s st = ok st.
Proof.
  intros H. unfold process_snp. now rewrite H.
Qed.

Section Loop.

Variable sort_values : Pandas.frame Z -> Pandas.frame Z.
Hypothesis sort_values_ok : Pandas.sorts_values sort_values.
Variable tads : list tad_gene.

(** The selection never raises: the label it looks up is a label of the
    matched set. *)
Lemma nearest_gene_total (ta : list tad_gene) (pos : Z) :
  exists name, nearest_gene sort_values ta pos = ok name.
Proof.
  destruct (existsb is_protein_coding ta) eqn:E.
  - apply existsb_exists in E as [r [Hr Hp]].
    apply In_nth_error in Hr as [i Hi].
    destruct (nearest_gene_selected sort_values sort_values_ok ta pos i r
                Hi Hp) as [j [rest [sel [_ [_ [_ [H _]]]]]]].
    now exists (gene_name sel).
  - exists EmptyString. unfold nearest_gene, near_gene_idx.
    rewrite dist_df_nil; [reflexivity | assumption |].
    intros r Hr. destruct (is_protein_coding r) eqn:Hp; [|reflexivity].
    assert (existsb is_protein_coding ta = true)
      by (apply existsb_exists; now exists r).
    congruence.
Qed.

Lemma process_snp_matched (g : string) (s : snp_row) (st : tables) :
  matched tads s = true ->
  exists name,
    nearest_gene sort_values (assign_custom_snp_to_tad s tads) (position s)
    = ok name
    /\ process_snp sort_values tads g s st
       = ok {| results_df :=
                 {| columns :=
                      Pandas.append_columns
                        (columns (results_df st))
                        (tad_genes_columns ++ ["custom_snp"; "group"]);
                    rows := rows (results_df st)
                            ++ map (annotate s g)
                                   (assign_custom_snp_to_tad s tads) |};
               nearest_gene_df :=
                 nearest_gene_df st
                 ++ [ {| gene := name; near_snp := snp s;
                         near_group := g |} ] |}.
Proof.
  intros Hm.
  destruct (nearest_gene_total (assign_custom_snp_to_tad s tads) (position s))
    as [name Hname].
  exists name. split; [exact Hname|].
  unfold process_snp. unfold matched in Hm. rewrite Hm, Hname. reflexivity.
Qed.

Lemma process_snp_effect (g : string) (s : snp_row) (st : tables) :
  exists st', process_snp sort_values tads g s st = ok st'
              /\ loop_effect tads [(g, s)] st st'.
Proof.
  destruct (matched tads s) eqn:Hm.
  - destruct (process_snp_matched g s st Hm) as [name [_ Hp]].
    eexists. split; [exact Hp|].
    unfold loop_effect; simpl. rewrite Hm, map_app, app_nil_r. simpl.
    repeat split.
    unfold columns_track_appends; simpl. rewrite length_app; simpl.
    replace (Nat.eqb (List.length (nearest_gene_df st) + 1) 0) with false
      by (symmetry; apply Nat.eqb_neq; lia).
    intros ->. destruct (Nat.eqb (List.length (nearest_gene_df st)) 0);
      reflexivity.
  - exists st. split.
    + apply process_snp_unmatched. now apply matched_false_iff.
    + unfold loop_effect; simpl. rewrite Hm.
      apply matched_false_iff in Hm. rewrite Hm. simpl.
      rewrite !app_nil_r. auto.
Qed.

Lemma inner_loop_effect (g : string) (l : list snp_row) (st : tables) :
  exists st', for_each (process_snp sort_values tads g) l st = ok st'
              /\ loop_effect tads (map (pair g) l) st st'.
Proof.
  revert st; induction l as [|s l IH]; intros st; simpl.
  - exists st. split; [reflexivity | apply loop_effect_nil].
  - destruct (process_snp_effect g s st) as [st1 [H1 E1]].
    destruct (IH st1) as [st2 [H2 E2]].
    exists st2. rewrite H1. split; [exact H2|].
    apply (loop_effect_app tads [(g, s)] _ st st1 st2); assumption.
Qed.

Lemma outer_loop_effect (snp_df : list snp_row) (gs : list string)
    (st : tables) :
  exists st',
    for_each (process_group sort_values tads snp_df) gs st = ok st'
    /\ loop_effect tads
         (flat_map
            (fun g => map (pair g)
                          (filter (fun s => String.eqb (group s) g) snp_df))
            gs)
         st st'.
Proof.
  revert st; induction gs as [|g gs IH]; intros st; simpl.
  - exists st. split; [reflexivity | apply loop_effect_nil].
  - unfold process_group at 1.
    destruct (inner_loop_effect g
                (filter (fun s => String.eqb (group s) g) snp_df) st)
      as [st1 [H1 E1]].
    destruct (IH st1) as [st2 [H2 E2]].
    exists st2. rewrite H1. split; [exact H2|].
    eapply loop_effect_app; eassumption.
Qed.

(** The loop runs to its end, and its two tables are those of the visits
    in order. *)
Lemma main_loop_effect (snp_df : list snp_row) :
  exists st, main_loop sort_values tads snp_df = ok st
             /\ loop_effect tads (visits snp_df) initial_tables st.
Proof.
  apply outer_loop_effect.
Qed.

End Loop.

Lemma visits_snps (snp_df : list snp_row) :
  Permutation (map snd (visits snp_df)) snp_df.
Proof.
  unfold visits.
  assert (H : forall gs,
            map snd
              (flat_map
                 (fun g => map (pair g)
                            (filter (fun s => String.eqb (group s) g) snp_df))
                 gs)
            = flat_map
                (fun g => filter (fun s => String.eqb (group s) g) snp_df)
                gs).
  { induction gs as [|g gs IH]; simpl; [reflexivity|].
    rewrite map_app, IH, map_map. simpl. now rewrite map_id. }
  rewrite H. apply group_partition.
  - apply unique_NoDup.
  - intros s Hs. apply unique_In. now apply in_map.
Qed.

Lemma visits_group (snp_df : list snp_row) (g : string) (s : snp_row) :
  In (g, s) (visits snp_df) <-> In s snp_df /\ group s = g.
Proof.
  unfold visits. rewrite in_flat_map. split.
  - intros [g' [_ H]]. apply in_map_iff in H as [s' [[= <- <-] H]].
    apply filter_In in H as [H E]. now apply String.eqb_eq in E.
  - intros [Hs <-]. exists (group s). split.
    + apply unique_In. now apply in_map.
    + apply in_map. apply filter_In. split; [exact Hs|].
      apply String.eqb_refl.
Qed.

Lemma matched_visits_length (tads : list tad_gene) (snp_df : list snp_row) :
  List.length (filter (fun v => matched tads (snd v)) (visits snp_df))
  = List.length (filter (matched tads) snp_df).
Proof.
  rewrite <- (Permutation_filter_length (matched tads) _ _
                (visits_snps snp_df)).
  rewrite filter_map_swap, length_map. reflexivity.
Qed.

(** ** Nearest gene: the claims *)

Lemma is_protein_coding_iff (r : tad_gene) :
  is_protein_coding r = true <-> gene_type r = "protein_coding".
Proof. apply String.eqb_eq. Qed.

(** C2: when the matched set of a SNP has a protein-coding gene, the
    distance frame holds for every protein-coding row its distances
    [|start - p|] and [|stop - p|], and the row selected is a protein-coding
    row of the matched set whose [min(|start - p|, |stop - p|)] is the global
    minimum of the frame and the least such value over all protein-coding
    rows of the matched set. *)
Theorem C2_nearest_gene_attains_minimum
    (sort_values : Pandas.frame Z -> Pandas.frame Z)
    (Hsort : Pandas.sorts_values sort_values)
    (tads : list tad_gene) (s : snp_row) (r0 : tad_gene)
    (Hmatch : In r0 (assign_custom_snp_to_tad s tads))
    (Hpc : gene_type r0 = "protein_coding") :
  let ta := assign_custom_snp_to_tad s tads in
  let p := position s in
  (forall i r,
     nth_error ta i = Some r -> gene_type r = "protein_coding" ->
     In (i, (Some (Z.abs (start r - p)), Some (Z.abs (stop r - p))))
        (dist_df sort_values ta p))
  /\ exists i sel,
       hd_error (near_gene_idx sort_values ta p) = Some i
       /\ nth_error ta i = Some sel
       /\ gene_type sel = "protein_coding"
       /\ nearest_gene sort_values ta p = ok (gene_name sel)
       /\ min_distance sort_values ta p = Some (gene_distance p sel)
       /\ forall r, In r ta -> gene_type r = "protein_coding" ->
                    gene_distance p sel <= gene_distance p r.
Proof.
  intros ta p. split.
  - intros i r Hn Hp. apply dist_df_In; [assumption|].
    exists r. simpl. repeat split; [assumption|].
    now apply is_protein_coding_iff.
  - apply In_nth_error in Hmatch as [i0 Hi0].
    apply is_protein_coding_iff in Hpc.
    destruct (nearest_gene_selected sort_values Hsort ta p i0 r0 Hi0 Hpc)
      as [i [rest [sel [Hidx [Hn [Hp [Hname [Hmin [Hle _]]]]]]]]].
    exists i, sel. rewrite Hidx. repeat split; try assumption.
    + now apply is_protein_coding_iff.
    + intros r Hr Hrp. apply In_nth_error in Hr as [j Hj].
      apply (Hle j r Hj). now apply is_protein_coding_iff.
Qed.

Lemma C2_nearest_gene_attains_minimum_witness :
  Pandas.sorts_values Pandas.insertion_sort
  /\ In gene_A (assign_custom_snp_to_tad snp_150 [gene_A])
  /\ gene_type gene_A = "protein_coding"
  /\ exists i sel,
       hd_error (near_gene_idx Pandas.insertion_sort
                   (assign_custom_snp_to_tad snp_150 [gene_A])
                   (position snp_150)) = Some i
       /\ nth_error (assign_custom_snp_to_tad snp_150 [gene_A]) i = Some sel
       /\ gene_type sel = "protein_coding"
       /\ nearest_gene Pandas.insertion_sort
            (assign_custom_snp_to_tad snp_150 [gene_A]) (position snp_150)
          = ok (gene_name sel)
       /\ min_distance Pandas.insertion_sort
            (assign_custom_snp_to_tad snp_150 [gene_A]) (position snp_150)
          = Some (gene_distance (position snp_150) sel)
       /\ forall r, In r (assign_custom_snp_to_tad snp_150 [gene_A]) ->
                    gene_type r = "protein_coding" ->
                    gene_distance (position snp_150) sel
                    <= gene_distance (position snp_150) r.
Proof.
  split; [exact insertion_sort_sorts_values|].
  split; [left; reflexivity|].
  split; [reflexivity|].
  apply (C2_nearest_gene_attains_minimum
           Pandas.insertion_sort insertion_sort_sorts_values
           [gene_A] snp_150 gene_A).
  - left; reflexivity.
  - reflexivity.
Defined.

(** C3, as the claim words it, fails: [near_stop] and [near_start] are
    both ten bases from position 150, [near_stop] comes first in the
    matched set, and the gene reported is [near_start]. *)
Lemma C3_first_encountered_counterexample :
  assign_custom_snp_to_tad snp_150 [near_stop; near_start]
  = [near_stop; near_start]
  /\ gene_distance 150 near_stop = 10
  /\ gene_distance 150 near_start = 10
  /\ first_encountered_nearest [near_stop; near_start] 150 = Some near_stop
  /\ nearest_gene Pandas.insertion_sort
       (assign_custom_snp_to_tad snp_150 [near_stop; near_start])
       (position snp_150)
     = ok "near_start".
Proof. repeat split. Qed.

(** C3, amended: when several protein-coding genes of the matched set are
    at the global minimum distance, the gene reported is the first of them
    in the order of ascending start distance [|start - p|] that the sort
    leaves, so none of them has a smaller start distance than it. *)
Theorem C3_tie_goes_to_least_start_distance
    (sort_values : Pandas.frame Z -> Pandas.frame Z)
    (Hsort : Pandas.sorts_values sort_values)
    (tads : list tad_gene) (s : snp_row) (r0 : tad_gene)
    (Hmatch : In r0 (assign_custom_snp_to_tad s tads))
    (Hpc : gene_type r0 = "protein_coding") :
  let ta := assign_custom_snp_to_tad s tads in
  let p := position s in
  exists i sel,
    hd_error (near_gene_idx sort_values ta p) = Some i
    /\ nth_error ta i = Some sel
    /\ gene_type sel = "protein_coding"
    /\ nearest_gene sort_values ta p = ok (gene_name sel)
    /\ (forall r, In r ta -> gene_type r = "protein_coding" ->
                  gene_distance p sel <= gene_distance p r)
    /\ (forall r, In r ta -> gene_type r = "protein_coding" ->
                  gene_distance p r = gene_distance p sel ->
                  Z.abs (start sel - p) <= Z.abs (start r - p)).
Proof.
  intros ta p.
  apply In_nth_error in Hmatch as [i0 Hi0].
  apply is_protein_coding_iff in Hpc.
  destruct (nearest_gene_selected sort_values Hsort ta p i0 r0 Hi0 Hpc)
    as [i [rest [sel [Hidx [Hn [Hp [Hname [_ [Hle Htie]]]]]]]]].
  exists i, sel. rewrite Hidx. repeat split; try assumption.
  - now apply is_protein_coding_iff.
  - intros r Hr Hrp. apply In_nth_error in Hr as [j Hj].
    apply (Hle j r Hj). now apply is_protein_coding_iff.
  - intros r Hr Hrp Hd. apply In_nth_error in Hr as [j Hj].
    apply (Htie j r Hj); [now apply is_protein_coding_iff | exact Hd].
Qed.

Lemma C3_tie_goes_to_least_start_distance_witness :
  Pandas.sorts_values Pandas.insertion_sort
  /\ In near_stop (assign_custom_snp_to_tad snp_150 [near_stop; near_start])
  /\ gene_type near_stop = "protein_coding"
  /\ exists i sel,
       hd_error (near_gene_idx Pandas.insertion_sort
                   (assign_custom_snp_to_tad snp_150 [near_stop; near_start])
                   (position snp_150)) = Some i
       /\ nth_error (assign_custom_snp_to_tad snp_150 [near_stop; near_start])
                    i = Some sel
       /\ gene_type sel = "protein_coding"
       /\ nearest_gene Pandas.insertion_sort
            (assign_custom_snp_to_tad snp_150 [near_stop; near_start])
            (position snp_150)
          = ok (gene_name sel)
       /\ (forall r,
             In r (assign_custom_snp_to_tad snp_150 [near_stop; near_start]) ->
             gene_type r = "protein_coding" ->
             gene_distance (position snp_150) sel
             <= gene_distance (position snp_150) r)
       /\ (forall r,
             In r (assign_custom_snp_to_tad snp_150 [near_stop; near_start]) ->
             gene_type r = "protein_coding" ->
             gene_distance (position snp_150) r
             = gene_distance (position snp_150) sel ->
             Z.abs (start sel - position snp_150)
             <= Z.abs (start r - position snp_150)).
Proof.
  split; [exact insertion_sort_sorts_values|].
  split; [left; reflexivity|].
  split; [reflexivity|].
  apply (C3_tie_goes_to_least_start_distance
           Pandas.insertion_sort insertion_sort_sorts_values
           [near_stop; near_start] snp_150 near_stop).
  - left; reflexivity.
  - reflexivity.
Defined.

(** The tie of the example falls the same way under every sort: the
    reported gene is the one with the smaller start distance. *)
Lemma tie_example_any_sort
    (sort_values : Pandas.frame Z -> Pandas.frame Z) :
  Pandas.sorts_values sort_values ->
  nearest_gene sort_values [near_stop; near_start] 150 = ok "near_start".
Proof.
  intros Hsort.
  destruct (nearest_gene_selected sort_values Hsort
              [near_stop; near_start] 150 1%nat near_start
              eq_refl eq_refl)
    as [i [rest [sel [_ [Hn [_ [Hname [_ [_ Htie]]]]]]]]].
  rewrite Hname.
  destruct i as [|[|i]]; simpl in Hn.
  - injection Hn as <-.
    specialize (Htie 1%nat near_start eq_refl eq_refl eq_refl).
    vm_compute in Htie. exfalso. apply Htie. reflexivity.
  - injection Hn as <-. reflexivity.
  - destruct i; discriminate.
Qed.

(** C5: a SNP whose matched set is not empty and has no protein-coding row
    gets the empty string as its nearest gene, and its iteration completes:
    one row with the empty gene name is appended to the nearest-gene
    table. *)
Theorem C5_no_protein_coding_gives_empty_name
    (sort_values : Pandas.frame Z -> Pandas.frame Z)
    (Hsort : Pandas.sorts_values sort_values)
    (tads : list tad_gene) (g : string) (s : snp_row) (st : tables)
    (Hmatch : assign_custom_snp_to_tad s tads <> [])
    (Hno : forall r, In r (assign_custom_snp_to_tad s tads) ->
                     gene_type r <> "protein_coding") :
  nearest_gene sort_values (assign_custom_snp_to_tad s tads) (position s)
  = ok EmptyString
  /\ exists st',
       process_snp sort_values tads g s st = ok st'
       /\ nearest_gene_df st'
          = (nearest_gene_df st
             ++ [ {| gene := EmptyString; near_snp := snp s; near_group := g |} ])%list
       /\ rows (results_df st')
          = (rows (results_df st)
             ++ map (annotate s g) (assign_custom_snp_to_tad s tads))%list.
Proof.
  assert (Hname : nearest_gene sort_values (assign_custom_snp_to_tad s tads)
                    (position s) = ok EmptyString).
  { unfold nearest_gene, near_gene_idx.
    rewrite dist_df_nil; [reflexivity | assumption |].
    intros r Hr. destruct (is_protein_coding r) eqn:Hp; [|reflexivity].
    apply is_protein_coding_iff in Hp. now destruct (Hno r Hr). }
  split; [exact Hname|].
  assert (Hm : matched tads s = true).
  { destruct (matched tads s) eqn:E; [reflexivity|].
    apply matched_false_iff in E. contradiction. }
  destruct (process_snp_matched sort_values Hsort tads g s st Hm)
    as [name [Hn Hp]].
  rewrite Hname in Hn. injection Hn as <-.
  eexists. split; [exact Hp|]. simpl. split; reflexivity.
Qed.

Lemma C5_no_protein_coding_gives_empty_name_witness :
  Pandas.sorts_values Pandas.insertion_sort
  /\ assign_custom_snp_to_tad snp_150 [lnc_gene] <> []
  /\ (forall r, In r (assign_custom_snp_to_tad snp_150 [lnc_gene]) ->
                gene_type r <> "protein_coding")
  /\ nearest_gene Pandas.insertion_sort
       (assign_custom_snp_to_tad snp_150 [lnc_gene]) (position snp_150)
     = ok EmptyString.
Proof.
  assert (H1 : assign_custom_snp_to_tad snp_150 [lnc_gene] <> [])
    by discriminate.
  assert (H2 : forall r, In r (assign_custom_snp_to_tad snp_150 [lnc_gene]) ->
                         gene_type r <> "protein_coding").
  { intros r [<- | []]. discriminate. }
  split; [exact insertion_sort_sorts_values|].
  split; [exact H1|]. split; [exact H2|].
  exact (proj1 (C5_no_protein_coding_gives_empty_name
                  Pandas.insertion_sort insertion_sort_sorts_values
                  [lnc_gene] "trait" snp_150 initial_tables H1 H2)).
Defined.

(** C6: a SNP whose matched set is empty is skipped: its iteration ends
    without an exception and leaves both accumulating tables as they
    were. *)
Theorem C6_unmatched_snp_is_skipped
    (sort_values : Pandas.frame Z -> Pandas.frame Z)
    (tads : list tad_gene) (g : string) (s : snp_row) (st : tables)
    (Hempty : assign_custom_snp_to_tad s tads = []) :
  process_snp sort_values tads g s st = ok st.
Proof.
  now apply process_snp_unmatched.
Qed.

Lemma C6_unmatched_snp_is_skipped_witness :
  assign_custom_snp_to_tad snp_nowhere [gene_A] = []
  /\ process_snp Pandas.insertion_sort [gene_A] "trait" snp_nowhere
       initial_tables
     = ok initial_tables.
Proof.
  split; [reflexivity|].
  apply (C6_unmatched_snp_is_skipped Pandas.insertion_sort [gene_A] "trait"
           snp_nowhere initial_tables).
  reflexivity.
Defined.

(** ** The tables after the loop *)

(** C7: the loop runs to its end and leaves in the nearest-gene table one
    row for each row of the SNP table that has at least one matching TAD
    row, so the two counts agree; a row of the SNP table is visited in the
    iteration of its own group and in no other.  When the output stage
    writes the nearest-gene file, these are the rows it writes. *)
Theorem C7_nearest_rows_count_matched_snps
    (sort_values : Pandas.frame Z -> Pandas.frame Z)
    (Hsort : Pandas.sorts_values sort_values)
    (tads : list tad_gene) (snp_df : list snp_row) :
  exists st,
    main_loop sort_values tads snp_df = ok st
    /\ List.length (nearest_gene_df st)
       = List.length (filter (matched tads) snp_df)
    /\ map near_key (nearest_gene_df st)
       = map (fun v => (snp (snd v), fst v))
             (filter (fun v => matched tads (snd v)) (visits snp_df))
    /\ Permutation (map snd (visits snp_df)) snp_df
    /\ (forall out files,
          build_genelist sort_values tads snp_df out = ok files ->
          exists f, In f files
                    /\ path f = output_nearest_gene_file out
                    /\ body f = NearestBody (nearest_gene_df st)).
Proof.
  destruct (main_loop_effect sort_values Hsort tads snp_df)
    as [st [Hrun [Hkeys _]]].
  simpl in Hkeys.
  exists st. split; [exact Hrun|]. split; [|split; [exact Hkeys|split]].
  - rewrite <- (length_map near_key), Hkeys, length_map.
    apply matched_visits_length.
  - apply visits_snps.
  - intros out files Hfiles. unfold build_genelist in Hfiles.
    rewrite Hrun in Hfiles. simpl in Hfiles. unfold write_outputs in Hfiles.
    simpl in Hfiles.
    destruct (Pandas.set_columns results_header (columns (results_df st)))
      as [e|cols]; simpl in Hfiles; [discriminate|].
    injection Hfiles as <-.
    eexists. split; [right; left; reflexivity|]. split; reflexivity.
Qed.

Lemma C7_nearest_rows_count_matched_snps_witness :
  Pandas.sorts_values Pandas.insertion_sort
  /\ exists st,
       main_loop Pandas.insertion_sort [gene_A; lnc_gene]
                 [snp_150; snp_nowhere; snp_150] = ok st
       /\ List.length (nearest_gene_df st)
          = List.length (filter (matched [gene_A; lnc_gene])
                                [snp_150; snp_nowhere; snp_150]).
Proof.
  split; [exact insertion_sort_sorts_values|].
  destruct (C7_nearest_rows_count_matched_snps
              Pandas.insertion_sort insertion_sort_sorts_values
              [gene_A; lnc_gene] [snp_150; snp_nowhere; snp_150])
    as [st [Hrun [Hlen _]]].
  exists st. split; [exact Hrun | exact Hlen].
Defined.

(** The rename of the result columns succeeds exactly on thirteen
    columns. *)
Lemma set_columns_results (cols : list string) :
  Pandas.set_columns results_header cols
  = if Nat.eqb 13 (List.length cols) then ok results_header
    else raise (ValueError (List.length cols) 13).
Proof. reflexivity. Qed.

(** When no SNP lies in a TAD nothing is appended to [results_df], the
    rename of its twelve columns to thirteen names raises, and no file is
    written. *)
Lemma build_genelist_no_match
    (sort_values : Pandas.frame Z -> Pandas.frame Z)
    (tads : list tad_gene) (snp_df : list snp_row) (out : string) :
  Pandas.sorts_values sort_values ->
  (forall s, In s snp_df -> assign_custom_snp_to_tad s tads = []) ->
  build_genelist sort_values tads snp_df out = raise (ValueError 12 13).
Proof.
  intros Hsort Hnone.
  destruct (main_loop_effect sort_values Hsort tads snp_df)
    as [st [Hrun [Hkeys [_ Hcols]]]].
  unfold build_genelist. rewrite Hrun. simpl.
  assert (Hz : filter (fun v => matched tads (snd v)) (visits snp_df) = []).
  { apply filter_nil_iff. intros [g s] Hv. simpl.
    apply visits_group in Hv as [Hs _].
    apply matched_false_iff. now apply Hnone. }
  rewrite Hz in Hkeys. simpl in Hkeys. apply map_eq_nil in Hkeys.
  specialize (Hcols eq_refl). unfold columns_track_appends in Hcols.
  rewrite Hkeys in Hcols. simpl in Hcols.
  unfold write_outputs. rewrite Hcols. reflexivity.
Qed.

(** When some SNP lies in a TAD both files are written: the matches at
    [output_file], one row per visited SNP and gene of its matched set, and
    the nearest genes at the derived path. *)
Lemma build_genelist_some_match
    (sort_values : Pandas.frame Z -> Pandas.frame Z)
    (tads : list tad_gene) (snp_df : list snp_row) (out : string)
    (s0 : snp_row) :
  Pandas.sorts_values sort_values ->
  In s0 snp_df ->
  assign_custom_snp_to_tad s0 tads <> [] ->
  exists st,
    main_loop sort_values tads snp_df = ok st
    /\ build_genelist sort_values tads snp_df out
       = ok [ {| path := out; header := results_header; with_index := false;
                 body := ResultsBody (rows (results_df st)) |};
              {| path := output_nearest_gene_file out;
                 header := nearest_header; with_index := true;
                 body := NearestBody (nearest_gene_df st) |} ]
    /\ rows (results_df st)
       = flat_map
           (fun v => map (annotate (snd v) (fst v))
                         (assign_custom_snp_to_tad (snd v) tads))
           (visits snp_df).
Proof.
  intros Hsort Hs0 Hm0.
  destruct (main_loop_effect sort_values Hsort tads snp_df)
    as [st [Hrun [Hkeys [Hrows Hcols]]]].
  exists st. split; [exact Hrun|]. split; [|exact Hrows].
  unfold build_genelist. rewrite Hrun. simpl.
  assert (Hnz : Nat.eqb (List.length (nearest_gene_df st)) 0 = false).
  { apply Nat.eqb_neq. rewrite <- (length_map near_key), Hkeys. simpl.
    rewrite length_map, matched_visits_length.
    assert (Hin : In s0 (filter (matched tads) snp_df)).
    { apply filter_In. split; [exact Hs0|].
      destruct (matched tads s0) eqn:E; [reflexivity|].
      apply matched_false_iff in E. contradiction. }
    destruct (filter (matched tads) snp_df); [destruct Hin | simpl; lia]. }
  specialize (Hcols eq_refl). unfold columns_track_appends in Hcols.
  rewrite Hnz in Hcols.
  unfold write_outputs. rewrite Hcols. reflexivity.
Qed.

(** ** Paths *)

Lemma slice_to_from (n : nat) (p : string) :
  slice_to n p ++ slice_from n p = p.
Proof.
  revert p; induction n as [|n IH]; intros p; [reflexivity|].
  destruct p as [|a p]; simpl; [reflexivity | now rewrite IH].
Qed.

Lemma string_app_empty (p : string) : p ++ EmptyString = p.
Proof.
  induction p as [|a p IH]; simpl; [reflexivity | now rewrite IH].
Qed.

(** [splitext] cuts the path in two: root and extension give the path
    back. *)
Lemma splitext_app (p : string) :
  fst (PosixPath.splitext p) ++ snd (PosixPath.splitext p) = p.
Proof.
  unfold PosixPath.splitext.
  destruct (PosixPath.rfind "." p >? PosixPath.rfind "/" p);
    [|apply string_app_empty].
  generalize (Z.to_nat (PosixPath.rfind "." p
                        - (PosixPath.rfind "/" p + 1))).
  generalize (PosixPath.rfind "/" p + 1).
  intros i n; revert i; induction n as [|n IH]; intros i; simpl;
    [apply string_app_empty|].
  destruct (get (Z.to_nat i) p) as [c|]; [|apply slice_to_from].
  destruct (Ascii.eqb c ".") eqn:E.
  - apply Ascii.eqb_eq in E; subst c. apply IH.
  - destruct c as [[] [] [] [] [] [] [] []];
      try apply slice_to_from; discriminate.
Qed.

(** ** The script's top level *)

(** C4: the name [tad_cell], from which the index file name is built, is
    bound nowhere in the script, so for every value of [--TAD_Boundary]
    building the file name raises a [NameError]: no table is loaded and the
    script stops there. *)
Theorem C4_tad_cell_is_unbound
    (sort_values : Pandas.frame Z -> Pandas.frame Z)
    (read_tad : string -> list tad_gene) (read_snp : string -> list snp_row)
    (args : arguments) :
  index_file args = raise (NameError "tad_cell")
  /\ script sort_values read_tad read_snp args
     = raise (NameError "tad_cell").
Proof.
  split; reflexivity.
Qed.

(** C9: two runs that write no file.  With the tables taken as loaded and
    a SNP table whose only SNP lies in no TAD, or an empty SNP table, the
    rename of the result columns raises before either file is written; the
    script as a whole stops earlier still, at the unbound name. *)
Theorem C9_runs_that_write_nothing :
  build_genelist Pandas.insertion_sort [gene_A] [snp_nowhere]
                 "results/genes.tsv"
  = raise (ValueError 12 13)
  /\ build_genelist Pandas.insertion_sort [gene_A] [] "results/genes.tsv"
     = raise (ValueError 12 13)
  /\ script Pandas.insertion_sort (fun _ => [gene_A]) (fun _ => [snp_150])
            sample_args
     = raise (NameError "tad_cell").
Proof.
  repeat split.
Qed.

(** The run of the specification's example, with the tables taken as
    loaded: both files, under the two paths. *)
Example build_genelist_example :
  build_genelist Pandas.insertion_sort [gene_A] [snp_150] "results/genes.tsv"
  = ok [ {| path := "results/genes.tsv"; header := results_header;
            with_index := false;
            body := ResultsBody [annotate snp_150 "trait" gene_A] |};
         {| path := "results/genes_nearest_gene.tsv";
            header := nearest_header; with_index := true;
            body := NearestBody [ {| gene := "A"; near_snp := "rs1";
                                     near_group := "trait" |} ] |} ].
Proof. reflexivity. Qed.

(** ** Overlapping TADs *)

(** C10: when the position of a SNP lies in the intervals of two different
    TADs of its chromosome, the rows of both are in the matched set, which
    is the set of all rows of the table whose interval contains the
    position; all of them are appended to the results for that SNP, and
    the nearest protein-coding gene is the nearest over all of them. *)
Theorem C10_overlapping_tads_are_pooled
    (sort_values : Pandas.frame Z -> Pandas.frame Z)
    (Hsort : Pandas.sorts_values sort_values)
    (tads : list tad_gene) (g : string) (s : snp_row) (st : tables)
    (r1 r2 : tad_gene)
    (H1 : In r1 tads) (H2 : In r2 tads)
    (Hid : TAD_id r1 <> TAD_id r2)
    (Hin1 : in_tad s r1 = true) (Hin2 : in_tad s r2 = true) :
  let ta := assign_custom_snp_to_tad s tads in
  In r1 ta /\ In r2 ta
  /\ (forall r, In r ta <-> In r tads /\ in_tad s r = true)
  /\ exists name st',
       process_snp sort_values tads g s st = ok st'
       /\ rows (results_df st')
          = (rows (results_df st) ++ map (annotate s g) ta)%list
       /\ nearest_gene_df st'
          = (nearest_gene_df st
             ++ [ {| gene := name; near_snp := snp s;
                     near_group := g |} ])%list
       /\ nearest_gene sort_values ta (position s) = ok name
       /\ ((exists r, In r ta /\ gene_type r = "protein_coding") ->
           exists sel,
             In sel ta
             /\ gene_type sel = "protein_coding"
             /\ name = gene_name sel
             /\ forall r, In r tads -> in_tad s r = true ->
                          gene_type r = "protein_coding" ->
                          gene_distance (position s) sel
                          <= gene_distance (position s) r).
Proof.
  intros ta.
  assert (Hta : forall r, In r ta <-> In r tads /\ in_tad s r = true).
  { intros r. unfold ta. rewrite assign_custom_snp_to_tad_filter.
    apply filter_In. }
  split; [now apply Hta|]. split; [now apply Hta|]. split; [exact Hta|].
  assert (Hm : matched tads s = true).
  { destruct (matched tads s) eqn:E; [reflexivity|].
    apply matched_false_iff in E. fold ta in E.
    assert (Hr : In r1 ta) by now apply Hta.
    rewrite E in Hr. destruct Hr. }
  destruct (process_snp_matched sort_values Hsort tads g s st Hm)
    as [name [Hname Hp]].
  exists name. eexists. split; [exact Hp|]. simpl.
  split; [reflexivity|]. split; [reflexivity|]. split; [exact Hname|].
  intros [r0 [Hr0 Hpc0]].
  apply In_nth_error in Hr0 as [i0 Hi0].
  apply is_protein_coding_iff in Hpc0.
  destruct (nearest_gene_selected sort_values Hsort ta (position s) i0 r0
              Hi0 Hpc0)
    as [i [rest [sel [_ [Hn [Hps [Hsel [_ [Hle _]]]]]]]]].
  exists sel. split; [now apply nth_error_In in Hn|].
  split; [now apply is_protein_coding_iff|].
  split.
  - fold ta in Hname. rewrite Hsel in Hname. now injection Hname.
  - intros r Hr Hin Hpc.
    assert (Hrta : In r ta) by now apply Hta.
    apply In_nth_error in Hrta as [j Hj].
    apply (Hle j r Hj). now apply is_protein_coding_iff.
Qed.

Lemma C10_overlapping_tads_are_pooled_witness :
  Pandas.sorts_values Pandas.insertion_sort
  /\ TAD_id overlap_far <> TAD_id overlap_near
  /\ in_tad snp_450 overlap_far = true
  /\ in_tad snp_450 overlap_near = true
  /\ In overlap_far
        (assign_custom_snp_to_tad snp_450 [overlap_far; overlap_near])
  /\ In overlap_near
        (assign_custom_snp_to_tad snp_450 [overlap_far; overlap_near]).
Proof.
  assert (Hid : TAD_id overlap_far <> TAD_id overlap_near) by discriminate.
  split; [exact insertion_sort_sorts_values|].
  split; [exact Hid|]. split; [reflexivity|]. split; [reflexivity|].
  pose proof (C10_overlapping_tads_are_pooled
                Pandas.insertion_sort insertion_sort_sorts_values
                [overlap_far; overlap_near] "trait" snp_450 initial_tables
                overlap_far overlap_near
                (or_introl eq_refl) (or_intror (or_introl eq_refl))
                Hid eq_refl eq_refl) as [Ha [Hb _]].
  split; [exact Ha | exact Hb].
Defined.

(** The overlapping example: the gene of the second TAD is reported. *)
Example overlapping_tads_example :
  process_snp Pandas.insertion_sort [overlap_far; overlap_near] "trait"
              snp_450 initial_tables
  = ok {| results_df :=
            {| columns := columns_after_append;
               rows := [annotate snp_450 "trait" overlap_far;
                        annotate snp_450 "trait" overlap_near] |};
          nearest_gene_df :=
            [ {| gene := "near"; near_snp := "rs2";
                 near_group := "trait" |} ] |}.
Proof. reflexivity. Qed.

(** * Further properties *)

(** ** The lookup at its edges *)

(** X1: the lower bound of a TAD interval is closed: a SNP at exactly
    [TAD_start] of a row of its chromosome, with a non-empty interval, is
    matched to that row. *)
Theorem lookup_lower_bound_closed
    (s : snp_row) (tads : list tad_gene) (r : tad_gene)
    (Hr : In r tads)
    (Hchr : chromosome r = slice_from 3 (chrom s))
    (Hpos : position s = TAD_start r)
    (Hint : TAD_start r < TAD_end r) :
  In r (assign_custom_snp_to_tad s tads).
Proof.
  rewrite assign_custom_snp_to_tad_filter. apply filter_In.
  split; [exact Hr|]. apply in_tad_spec. repeat split; [assumption|lia|lia].
Qed.

Lemma lookup_lower_bound_closed_witness :
  In gene_A (assign_custom_snp_to_tad (mk_snp "rs1" "chr1" 100 "trait")
                                      [gene_A]).
Proof.
  apply (lookup_lower_bound_closed (mk_snp "rs1" "chr1" 100 "trait")
           [gene_A] gene_A).
  - left; reflexivity.
  - reflexivity.
  - reflexivity.
  - simpl; lia.
Defined.

(** X2: a row whose TAD interval is empty or reversed
    ([TAD_end <= TAD_start]) is matched by no SNP. *)
Theorem lookup_skips_empty_intervals
    (s : snp_row) (tads : list tad_gene) (r : tad_gene)
    (Hint : TAD_end r <= TAD_start r) :
  ~ In r (assign_custom_snp_to_tad s tads).
Proof.
  rewrite assign_custom_snp_to_tad_filter, filter_In, in_tad_spec. lia.
Qed.

Lemma lookup_skips_empty_intervals_witness :
  ~ In (mk_gene "1" 200 200 "TAD1" "A" "protein_coding" 110 190)
       (assign_custom_snp_to_tad
          (mk_snp "rs1" "chr1" 200 "trait")
          [mk_gene "1" 200 200 "TAD1" "A" "protein_coding" 110 190]).
Proof.
  apply lookup_skips_empty_intervals. simpl; lia.
Defined.

(** X3: the lookup works row by row: on a table made of two parts it
    returns the rows found in the first part followed by the rows found in
    the second, so table order and repeated rows are kept. *)
Theorem lookup_distributes_over_tables
    (s : snp_row) (t1 t2 : list tad_gene) :
  assign_custom_snp_to_tad s (t1 ++ t2)
  = (assign_custom_snp_to_tad s t1 ++ assign_custom_snp_to_tad s t2)%list.
Proof.
  rewrite !assign_custom_snp_to_tad_filter. apply filter_app.
Qed.

Lemma slice_from_short (n : nat) (c : string) :
  (String.length c <= n)%nat -> slice_from n c = EmptyString.
Proof.
  revert c; induction n as [|n IH]; intros c Hc.
  - destruct c; [reflexivity | simpl in Hc; lia].
  - destruct c as [|a c]; [reflexivity|]. simpl in *. apply IH. lia.
Qed.

(** X4: a SNP whose chromosome field has at most three characters (a bare
    [1] or [X], or [chr] alone) matches no row of a table whose chromosome
    fields are not empty, and its loop iteration leaves both tables
    unchanged. *)
Theorem short_chromosome_snp_is_skipped
    (sort_values : Pandas.frame Z -> Pandas.frame Z)
    (tads : list tad_gene) (g : string) (s : snp_row) (st : tables)
    (Hshort : (String.length (chrom s) <= 3)%nat)
    (Htable : forall r, In r tads -> chromosome r <> EmptyString) :
  assign_custom_snp_to_tad s tads = []
  /\ process_snp sort_values tads g s st = ok st.
Proof.
  assert (H : assign_custom_snp_to_tad s tads = []).
  { rewrite assign_custom_snp_to_tad_filter. apply filter_nil_iff.
    intros r Hr. destruct (in_tad s r) eqn:E; [|reflexivity].
    apply in_tad_spec in E as [E _].
    rewrite (slice_from_short 3 _ Hshort) in E. now destruct (Htable r Hr). }
  split; [exact H | now apply process_snp_unmatched].
Qed.

Lemma short_chromosome_snp_is_skipped_witness :
  (String.length (chrom (mk_snp "rs1" "1" 150 "trait")) <= 3)%nat
  /\ (forall r, In r [gene_A] -> chromosome r <> EmptyString)
  /\ assign_custom_snp_to_tad (mk_snp "rs1" "1" 150 "trait") [gene_A] = [].
Proof.
  assert (H1 : (String.length (chrom (mk_snp "rs1" "1" 150 "trait")) <= 3)%nat)
    by (simpl; lia).
  assert (H2 : forall r, In r [gene_A] -> chromosome r <> EmptyString).
  { intros r [<- | []]. discriminate. }
  split; [exact H1|]. split; [exact H2|].
  exact (proj1 (short_chromosome_snp_is_skipped Pandas.insertion_sort
                  [gene_A] "trait" (mk_snp "rs1" "1" 150 "trait")
                  initial_tables H1 H2)).
Defined.

(** ** The candidates of the selection *)

Section Candidates.

Variable sort_values : Pandas.frame Z -> Pandas.frame Z.
Hypothesis sort_values_ok : Pandas.sorts_values sort_values.

(** A row of the distance frame that reaches the global minimum belongs to
    a gene at that distance. *)
Lemma reaches_min_gene_distance (ta : list tad_gene) (pos m : Z)
    (j : nat) (r : tad_gene) :
  min_distance sort_values ta pos = Some m ->
  nth_error ta j = Some r ->
  is_protein_coding r = true ->
  (reaches (Some m)
     (j, (Some (Z.abs (start r - pos)), Some (Z.abs (stop r - pos)))) = true
   <-> gene_distance pos r = m).
Proof.
  intros Hm Hn Hp.
  destruct (min_distance_spec sort_values sort_values_ok ta pos j r Hn Hp)
    as [m' [Hm' [Hle _]]].
  rewrite Hm in Hm'. injection Hm' as <-.
  specialize (Hle j r Hn Hp). unfold gene_distance in *.
  unfold reaches; simpl. rewrite orb_true_iff, !Z.eqb_eq. lia.
Qed.

Lemma near_gene_idx_In (ta : list tad_gene) (pos : Z) (j : nat) :
  In j (near_gene_idx sort_values ta pos) <->
  exists r, nth_error ta j = Some r
            /\ is_protein_coding r = true
            /\ forall r', In r' ta -> is_protein_coding r' = true ->
                          gene_distance pos r <= gene_distance pos r'.
Proof.
  unfold near_gene_idx, Pandas.labels_equal_to.
  fold (reaches (min_distance sort_values ta pos)).
  rewrite in_map_iff. split.
  - intros [e [<- He]]. apply filter_In in He as [He Hreach].
    apply dist_df_In in He as [r [Hn [Hp Hcells]]]; [|assumption].
    exists r. split; [exact Hn|]. split; [exact Hp|].
    destruct (min_distance_spec sort_values sort_values_ok ta pos _ r Hn Hp)
      as [m [Hm [Hle _]]].
    rewrite Hm in Hreach. destruct e as [j' cells]. simpl in *. subst cells.
    apply (reaches_min_gene_distance ta pos m j' r Hm Hn Hp) in Hreach.
    intros r' Hr' Hp'. apply In_nth_error in Hr' as [k Hk].
    rewrite Hreach. now apply (Hle k r').
  - intros [r [Hn [Hp Hleast]]].
    destruct (min_distance_spec sort_values sort_values_ok ta pos j r Hn Hp)
      as [m [Hm [Hle [e' [He' Hreach']]]]].
    exists (j, (Some (Z.abs (start r - pos)), Some (Z.abs (stop r - pos)))).
    split; [reflexivity|]. apply filter_In. split.
    + apply dist_df_In; [assumption|]. now exists r.
    + rewrite Hm.
      apply (reaches_min_gene_distance ta pos m j r Hm Hn Hp).
      apply dist_df_In in He' as [r' [Hn' [Hp' Hcells']]]; [|assumption].
      destruct e' as [j' cells']. simpl in *. subst cells'.
      apply (reaches_min_gene_distance ta pos m j' r' Hm Hn' Hp') in Hreach'.
      specialize (Hleast r' (nth_error_In _ _ Hn') Hp').
      specialize (Hle j r Hn Hp). lia.
Qed.

Lemma near_gene_idx_NoDup (ta : list tad_gene) (pos : Z) :
  NoDup (near_gene_idx sort_values ta pos).
Proof.
  unfold near_gene_idx, Pandas.labels_equal_to.
  apply NoDup_labels_filter.
  unfold dist_df, Pandas.join. rewrite map_map. simpl.
  apply sort_values_labels; [assumption|].
  rewrite abs_distance_labels. apply protein_coding_labels.
Qed.

End Candidates.

(** X5: the labels kept as candidates for the nearest gene are, each once,
    exactly the positions in the matched set of the protein-coding rows
    whose distance [min(|start - p|, |stop - p|)] is least among the
    protein-coding rows. *)
Theorem candidates_are_the_nearest_rows
    (sort_values : Pandas.frame Z -> Pandas.frame Z)
    (Hsort : Pandas.sorts_values sort_values)
    (ta : list tad_gene) (pos : Z) :
  NoDup (near_gene_idx sort_values ta pos)
  /\ forall j,
       In j (near_gene_idx sort_values ta pos) <->
       exists r, nth_error ta j = Some r
                 /\ gene_type r = "protein_coding"
                 /\ forall r', In r' ta -> gene_type r' = "protein_coding" ->
                               gene_distance pos r <= gene_distance pos r'.
Proof.
  split; [now apply near_gene_idx_NoDup|].
  intros j. rewrite (near_gene_idx_In sort_values Hsort). split.
  - intros [r [Hn [Hp Hle]]]. exists r. split; [exact Hn|].
    split; [now apply is_protein_coding_iff|].
    intros r' Hr' Hp'. apply Hle; [exact Hr'|now apply is_protein_coding_iff].
  - intros [r [Hn [Hp Hle]]]. exists r. split; [exact Hn|].
    split; [now apply is_protein_coding_iff|].
    intros r' Hr' Hp'. apply Hle; [exact Hr'|now apply is_protein_coding_iff].
Qed.

Lemma candidates_are_the_nearest_rows_witness :
  Pandas.sorts_values Pandas.insertion_sort
  /\ NoDup (near_gene_idx Pandas.insertion_sort [near_stop; near_start] 150).
Proof.
  split; [exact insertion_sort_sorts_values|].
  exact (proj1 (candidates_are_the_nearest_rows
                  Pandas.insertion_sort insertion_sort_sorts_values
                  [near_stop; near_start] 150)).
Defined.

(** X6: the gene reported does not depend on how the sort orders equal
    values, as long as no two protein-coding rows of the matched set at the
    same gene distance have the same start distance. *)
Theorem nearest_gene_independent_of_sort
    (sort1 sort2 : Pandas.frame Z -> Pandas.frame Z)
    (Hsort1 : Pandas.sorts_values sort1)
    (Hsort2 : Pandas.sorts_values sort2)
    (ta : list tad_gene) (pos : Z)
    (Hdistinct :
       forall i j r r',
         nth_error ta i = Some r -> nth_error ta j = Some r' ->
         gene_type r = "protein_coding" -> gene_type r' = "protein_coding" ->
         gene_distance pos r = gene_distance pos r' ->
         Z.abs (start r - pos) = Z.abs (start r' - pos) ->
         i = j) :
  nearest_gene sort1 ta pos = nearest_gene sort2 ta pos
  /\ hd_error (near_gene_idx sort1 ta pos)
     = hd_error (near_gene_idx sort2 ta pos).
Proof.
  destruct (existsb is_protein_coding ta) eqn:E.
  - apply existsb_exists in E as [r0 [Hr0 Hp0]].
    apply In_nth_error in Hr0 as [i0 Hi0].
    destruct (nearest_gene_selected sort1 Hsort1 ta pos i0 r0 Hi0 Hp0)
      as [i1 [rest1 [sel1 [Hidx1 [Hn1 [Hp1 [Hname1 [_ [Hle1 Htie1]]]]]]]]].
    destruct (nearest_gene_selected sort2 Hsort2 ta pos i0 r0 Hi0 Hp0)
      as [i2 [rest2 [sel2 [Hidx2 [Hn2 [Hp2 [Hname2 [_ [Hle2 Htie2]]]]]]]]].
    assert (Hd : gene_distance pos sel1 = gene_distance pos sel2).
    { specialize (Hle1 i2 sel2 Hn2 Hp2). specialize (Hle2 i1 sel1 Hn1 Hp1).
      lia. }
    assert (Hi : i1 = i2).
    { apply (Hdistinct i1 i2 sel1 sel2 Hn1 Hn2);
        try (now apply is_protein_coding_iff); try exact Hd.
      specialize (Htie1 i2 sel2 Hn2 Hp2 (eq_sym Hd)).
      specialize (Htie2 i1 sel1 Hn1 Hp1 Hd). lia. }
    subst i2. rewrite Hn1 in Hn2. injection Hn2 as <-.
    rewrite Hname1, Hname2, Hidx1, Hidx2. split; reflexivity.
  - assert (Hno : forall r, In r ta -> is_protein_coding r = false).
    { intros r Hr. destruct (is_protein_coding r) eqn:Hp; [|reflexivity].
      assert (existsb is_protein_coding ta = true)
        by (apply existsb_exists; now exists r).
      congruence. }
    unfold nearest_gene, near_gene_idx.
    rewrite (dist_df_nil sort1 Hsort1 ta pos Hno),
            (dist_df_nil sort2 Hsort2 ta pos Hno).
    split; reflexivity.
Qed.

Lemma nearest_gene_independent_of_sort_witness :
  Pandas.sorts_values Pandas.insertion_sort
  /\ nearest_gene Pandas.insertion_sort [near_stop; near_start] 150
     = nearest_gene Pandas.insertion_sort [near_stop; near_start] 150.
Proof.
  split; [exact insertion_sort_sorts_values|].
  refine (proj1 (nearest_gene_independent_of_sort
                   Pandas.insertion_sort Pandas.insertion_sort
                   insertion_sort_sorts_values insertion_sort_sorts_values
                   [near_stop; near_start] 150 _)).
  intros i j r r' Hi Hj _ _ _ Hs.
  destruct i as [|[|i]]; simpl in Hi; try (destruct i; discriminate);
    destruct j as [|[|j]]; simpl in Hj; try (destruct j; discriminate);
    injection Hi as <-; injection Hj as <-; try reflexivity;
    vm_compute in Hs; discriminate.
Defined.

(** ** The tables row by row *)

(** A loop whose every iteration returns normally and has an effect that
    composes along the list runs to its end with the composed effect. *)
Lemma for_each_effect {A St : Type} (body : A -> St -> result St)
    (E : list A -> St -> St -> Prop) :
  (forall st, E [] st st) ->
  (forall a l st0 st1 st2, E [a] st0 st1 -> E l st1 st2 ->
                           E (a :: l) st0 st2) ->
  (forall a st, exists st', body a st = ok st' /\ E [a] st st') ->
  forall l st, exists st', for_each body l st = ok st' /\ E l st st'.
Proof.
  intros Hnil Hcons Hstep l.
  induction l as [|a l IH]; intros st; simpl.
  - exists st. split; [reflexivity | apply Hnil].
  - destruct (Hstep a st) as [st1 [H1 E1]].
    destruct (IH st1) as [st2 [H2 E2]].
    exists st2. rewrite H1. split; [exact H2|].
    now apply (Hcons a l st st1 st2).
Qed.

Lemma nearest_rows_added_nil (sort_values : Pandas.frame Z -> Pandas.frame Z)
    (tads : list tad_gene) (st : tables) :
  nearest_rows_added sort_values tads [] st st.
Proof.
  exists []. simpl. rewrite app_nil_r. split; [reflexivity | constructor].
Qed.

Lemma nearest_rows_added_app (sort_values : Pandas.frame Z -> Pandas.frame Z)
    (tads : list tad_gene) (v1 v2 : list (string * snp_row))
    (st0 st1 st2 : tables) :
  nearest_rows_added sort_values tads v1 st0 st1 ->
  nearest_rows_added sort_values tads v2 st1 st2 ->
  nearest_rows_added sort_values tads (v1 ++ v2) st0 st2.
Proof.
  intros [n1 [E1 F1]] [n2 [E2 F2]]. exists (n1 ++ n2)%list.
  rewrite E2, E1, app_assoc, filter_app.
  split; [reflexivity | now apply Forall2_app].
Qed.

Section Rows.

Variable sort_values : Pandas.frame Z -> Pandas.frame Z.
Hypothesis sort_values_ok : Pandas.sorts_values sort_values.
Variable tads : list tad_gene.

Lemma process_snp_nearest_row (g : string) (s : snp_row) (st : tables) :
  exists st', process_snp sort_values tads g s st = ok st'
              /\ nearest_rows_added sort_values tads [(g, s)] st st'.
Proof.
  destruct (matched tads s) eqn:Hm.
  - destruct (process_snp_matched sort_values sort_values_ok tads g s st Hm)
      as [name [Hname Hp]].
    eexists. split; [exact Hp|].
    eexists. simpl. rewrite Hm. split; [reflexivity|].
    constructor; [|constructor].
    unfold nearest_row_for; simpl. auto.
  - exists st. split.
    + apply process_snp_unmatched. now apply matched_false_iff.
    + exists []. simpl. rewrite Hm, app_nil_r.
      split; [reflexivity | constructor].
Qed.

Lemma inner_loop_nearest_rows (g : string) (l : list snp_row) (st : tables) :
  exists st', for_each (process_snp sort_values tads g) l st = ok st'
              /\ nearest_rows_added sort_values tads (map (pair g) l) st st'.
Proof.
  apply (for_each_effect (process_snp sort_values tads g)
           (fun l => nearest_rows_added sort_values tads (map (pair g) l))).
  - intros st0. apply nearest_rows_added_nil.
  - intros a l0 st0 st1 st2 E1 E2.
    apply (nearest_rows_added_app sort_values tads [(g, a)] (map (pair g) l0)
             st0 st1 st2 E1 E2).
  - intros a st0. apply process_snp_nearest_row.
Qed.

Lemma main_loop_nearest_rows (snp_df : list snp_row) :
  exists st, main_loop sort_values tads snp_df = ok st
             /\ Forall2 (nearest_row_for sort_values tads)
                        (filter (fun v => matched tads (snd v))
                                (visits snp_df))
                        (nearest_gene_df st).
Proof.
  destruct (for_each_effect (process_group sort_values tads snp_df)
              (fun gs => nearest_rows_added sort_values tads
                 (flat_map
                    (fun g => map (pair g)
                       (filter (fun s => String.eqb (group s) g) snp_df))
                    gs)))
    with (l := Pandas.unique (map group snp_df)) (st := initial_tables)
    as [st [Hrun [new [Hnew HF]]]].
  - intros st0. apply nearest_rows_added_nil.
  - intros g gs st0 st1 st2 E1 E2. simpl in *. rewrite app_nil_r in E1.
    eapply nearest_rows_added_app; eassumption.
  - intros g st0. simpl. rewrite app_nil_r. unfold process_group.
    apply inner_loop_nearest_rows.
  - exists st. split; [exact Hrun|]. simpl in Hnew. rewrite Hnew. exact HF.
Qed.

End Rows.

(** X7: the loop leaves in the nearest-gene table, in the order of the
    visits (groups by first appearance, then the rows of the SNP table),
    one row for each visited SNP with a match, and that row holds the SNP's
    RSid, its group and the gene selected for it. *)
Theorem nearest_table_lists_matched_visits
    (sort_values : Pandas.frame Z -> Pandas.frame Z)
    (Hsort : Pandas.sorts_values sort_values)
    (tads : list tad_gene) (snp_df : list snp_row) :
  exists st,
    main_loop sort_values tads snp_df = ok st
    /\ Forall2
         (fun v n =>
            near_snp n = snp (snd v)
            /\ near_group n = group (snd v)
            /\ nearest_gene sort_values
                 (assign_custom_snp_to_tad (snd v) tads) (position (snd v))
               = ok (gene n))
         (filter (fun v => matched tads (snd v)) (visits snp_df))
         (nearest_gene_df st).
Proof.
  destruct (main_loop_nearest_rows sort_values Hsort tads snp_df)
    as [st [Hrun HF]].
  exists st. split; [exact Hrun|].
  assert (Hv : forall v,
            In v (filter (fun v => matched tads (snd v)) (visits snp_df)) ->
            group (snd v) = fst v).
  { intros [g s] Hv. apply filter_In in Hv as [Hv _].
    now apply visits_group in Hv. }
  revert Hv. induction HF as [|v n vs ns Hvn HF IH]; intros Hv;
    constructor.
  - destruct Hvn as [H1 [H2 H3]]. rewrite (Hv v (or_introl eq_refl)). auto.
  - apply IH. intros v' Hv'. apply Hv. now right.
Qed.

Lemma nearest_table_lists_matched_visits_witness :
  Pandas.sorts_values Pandas.insertion_sort
  /\ exists st,
       main_loop Pandas.insertion_sort [gene_A; lnc_gene]
                 [snp_150; snp_nowhere] = ok st
       /\ List.length (nearest_gene_df st) = 1%nat.
Proof.
  split; [exact insertion_sort_sorts_values|].
  destruct (nearest_table_lists_matched_visits
              Pandas.insertion_sort insertion_sort_sorts_values
              [gene_A; lnc_gene] [snp_150; snp_nowhere])
    as [st [Hrun HF]].
  exists st. split; [exact Hrun|].
  apply Forall2_length in HF. rewrite <- HF. reflexivity.
Defined.

(** X8: every gene name in the nearest-gene table that is not empty is
    the name of a protein-coding row of the TAD table whose chromosome and
    interval contain the SNP the row was written for, and no protein-coding
    row containing that SNP is nearer to it. *)
Theorem mapped_gene_shares_a_tad_with_its_snp
    (sort_values : Pandas.frame Z -> Pandas.frame Z)
    (Hsort : Pandas.sorts_values sort_values)
    (tads : list tad_gene) (snp_df : list snp_row) (st : tables)
    (n : nearest_row)
    (Hrun : main_loop sort_values tads snp_df = ok st)
    (Hn : In n (nearest_gene_df st))
    (Hname : gene n <> EmptyString) :
  exists s r,
    In s snp_df /\ snp s = near_snp n /\ group s = near_group n
    /\ In r tads /\ in_tad s r = true
    /\ gene_type r = "protein_coding"
    /\ gene_name r = gene n
    /\ forall r', In r' tads -> in_tad s r' = true ->
                  gene_type r' = "protein_coding" ->
                  gene_distance (position s) r
                  <= gene_distance (position s) r'.
Proof.
  destruct (main_loop_nearest_rows sort_values Hsort tads snp_df)
    as [st' [Hrun' HF]].
  rewrite Hrun in Hrun'. injection Hrun' as <-.
  assert (Hex : exists v,
            In v (filter (fun v => matched tads (snd v)) (visits snp_df))
            /\ nearest_row_for sort_values tads v n).
  { clear Hrun. induction HF as [|v n' vs ns Hvn HF IH]; [destruct Hn|].
    destruct Hn as [-> | Hn].
    - exists v. split; [now left | exact Hvn].
    - destruct (IH Hn) as [v' [Hv' H']]. exists v'. split; [now right|exact H']. }
  destruct Hex as [[g s] [Hv [Hsnp [Hgrp Hgene]]]]. simpl in *.
  apply filter_In in Hv as [Hv _]. apply visits_group in Hv as [Hs Hg].
  set (ta := assign_custom_snp_to_tad s tads) in *.
  assert (Hta : forall r, In r ta <-> In r tads /\ in_tad s r = true).
  { intros r. unfold ta. rewrite assign_custom_snp_to_tad_filter.
    apply filter_In. }
  destruct (existsb is_protein_coding ta) eqn:E.
  - apply existsb_exists in E as [r0 [Hr0 Hp0]].
    apply In_nth_error in Hr0 as [i0 Hi0].
    destruct (nearest_gene_selected sort_values Hsort ta (position s) i0 r0
                Hi0 Hp0)
      as [i [rest [sel [_ [Hnsel [Hpsel [Hsel [_ [Hle _]]]]]]]]].
    rewrite Hsel in Hgene. injection Hgene as Hgene.
    apply nth_error_In in Hnsel. apply Hta in Hnsel as [Hin Hint].
    exists s, sel. repeat split; try assumption; try congruence.
    + now apply is_protein_coding_iff.
    + intros r' Hr' Hin' Hp'.
      assert (Hr'ta : In r' ta) by now apply Hta.
      apply In_nth_error in Hr'ta as [j Hj].
      apply (Hle j r' Hj). now apply is_protein_coding_iff.
  - exfalso. apply Hname.
    assert (Hno : forall r, In r ta -> is_protein_coding r = false).
    { intros r Hr. destruct (is_protein_coding r) eqn:Hp; [|reflexivity].
      assert (existsb is_protein_coding ta = true)
        by (apply existsb_exists; now exists r).
      congruence. }
    unfold nearest_gene, near_gene_idx in Hgene.
    rewrite (dist_df_nil sort_values Hsort ta (position s) Hno) in Hgene.
    simpl in Hgene. now injection Hgene.
Qed.

Lemma mapped_gene_shares_a_tad_with_its_snp_witness :
  exists s r,
    In s [snp_150] /\ snp s = "rs1" /\ group s = "trait"
    /\ In r [gene_A] /\ in_tad s r = true
    /\ gene_type r = "protein_coding"
    /\ gene_name r = "A".
Proof.
  destruct (mapped_gene_shares_a_tad_with_its_snp
              Pandas.insertion_sort insertion_sort_sorts_values
              [gene_A] [snp_150]
              {| results_df :=
                   {| columns := columns_after_append;
                      rows := [annotate snp_150 "trait" gene_A] |};
                 nearest_gene_df :=
                   [ {| gene := "A"; near_snp := "rs1";
                        near_group := "trait" |} ] |}
              {| gene := "A"; near_snp := "rs1"; near_group := "trait" |}
              eq_refl (or_introl eq_refl))
    as [s [r [H1 [H2 [H3 [H4 [H5 [H6 [H7 _]]]]]]]]].
  - discriminate.
  - exists s, r. repeat split; assumption.
Defined.

Lemma flat_map_snd {A B C : Type} (F : B -> list C) (l : list (A * B)) :
  flat_map (fun v => F (snd v)) l = flat_map F (map snd l).
Proof.
  induction l as [|v l IH]; simpl; [reflexivity | now rewrite IH].
Qed.

Lemma flat_map_ext_In {A B : Type} (F G : A -> list B) (l : list A) :
  (forall a, In a l -> F a = G a) -> flat_map F l = flat_map G l.
Proof.
  induction l as [|a l IH]; simpl; intros H; [reflexivity|].
  rewrite (H a (or_introl eq_refl)), IH; [reflexivity|].
  intros b Hb. apply H. now right.
Qed.

(** The rows of [results_df] after the loop, with each visit's group read
    off its SNP. *)
Lemma main_loop_result_rows
    (sort_values : Pandas.frame Z -> Pandas.frame Z)
    (tads : list tad_gene) (snp_df : list snp_row) :
  Pandas.sorts_values sort_values ->
  exists st,
    main_loop sort_values tads snp_df = ok st
    /\ rows (results_df st)
       = flat_map (fun s => map (annotate s (group s))
                                (assign_custom_snp_to_tad s tads))
                  (map snd (visits snp_df))
    /\ map near_key (nearest_gene_df st)
       = map (fun s => (snp s, group s))
             (filter (matched tads) (map snd (visits snp_df))).
Proof.
  intros Hsort.
  destruct (main_loop_effect sort_values Hsort tads snp_df)
    as [st [Hrun [Hkeys [Hrows _]]]].
  exists st. split; [exact Hrun|]. simpl in Hrows, Hkeys. split.
  - rewrite Hrows, <- flat_map_snd. apply flat_map_ext_In.
    intros [g s] Hv. apply visits_group in Hv as [_ <-]. reflexivity.
  - rewrite Hkeys, filter_map_swap, map_map. apply map_ext_in.
    intros [g s] Hv. apply filter_In in Hv as [Hv _].
    apply visits_group in Hv as [_ <-]. reflexivity.
Qed.

(** X9: the matches table has one row for each pair of a SNP of the SNP
    table and a row of the TAD table whose chromosome and interval contain
    it, annotated with that SNP's RSid and group: its rows are a
    rearrangement, group by group, of those pairs taken in table order. *)
Theorem results_table_lists_snp_gene_pairs
    (sort_values : Pandas.frame Z -> Pandas.frame Z)
    (Hsort : Pandas.sorts_values sort_values)
    (tads : list tad_gene) (snp_df : list snp_row) :
  exists st,
    main_loop sort_values tads snp_df = ok st
    /\ Permutation
         (rows (results_df st))
         (flat_map (fun s => map (annotate s (group s))
                                 (filter (in_tad s) tads))
                   snp_df)
    /\ forall row,
         In row (rows (results_df st)) <->
         exists s r, In s snp_df /\ In r tads /\ in_tad s r = true
                     /\ row = {| tad_row := r; custom_snp := snp s;
                                 row_group := group s |}.
Proof.
  destruct (main_loop_result_rows sort_values tads snp_df Hsort)
    as [st [Hrun [Hrows _]]].
  exists st. split; [exact Hrun|].
  assert (HP : Permutation
                 (rows (results_df st))
                 (flat_map (fun s => map (annotate s (group s))
                                         (filter (in_tad s) tads))
                           snp_df)).
  { rewrite Hrows.
    erewrite flat_map_ext_In
      by (intros s _; rewrite assign_custom_snp_to_tad_filter; reflexivity).
    apply Permutation_flat_map, visits_snps. }
  split; [exact HP|]. intros row. split.
  - intros Hrow. apply (Permutation_in _ HP) in Hrow.
    apply in_flat_map in Hrow as [s [Hs Hrow]].
    apply in_map_iff in Hrow as [r [<- Hr]].
    apply filter_In in Hr as [Hr Hin]. now exists s, r.
  - intros [s [r [Hs [Hr [Hin ->]]]]].
    apply (Permutation_in _ (Permutation_sym HP)).
    apply in_flat_map. exists s. split; [exact Hs|].
    apply in_map_iff. exists r. split; [reflexivity|].
    apply filter_In. now split.
Qed.

Lemma results_table_lists_snp_gene_pairs_witness :
  Pandas.sorts_values Pandas.insertion_sort
  /\ exists st,
       main_loop Pandas.insertion_sort [overlap_far; overlap_near]
                 [snp_450; snp_nowhere] = ok st
       /\ Permutation
            (rows (results_df st))
            (flat_map (fun s => map (annotate s (group s))
                                    (filter (in_tad s)
                                            [overlap_far; overlap_near]))
                      [snp_450; snp_nowhere]).
Proof.
  split; [exact insertion_sort_sorts_values|].
  destruct (results_table_lists_snp_gene_pairs
              Pandas.insertion_sort insertion_sort_sorts_values
              [overlap_far; overlap_near] [snp_450; snp_nowhere])
    as [st [Hrun [HP _]]].
  exists st. split; [exact Hrun | exact HP].
Defined.

(** X10: the two tables name the same SNPs: a pair of RSid and group
    occurs in the matches table exactly when it occurs in the nearest-gene
    table. *)
Theorem tables_name_the_same_snps
    (sort_values : Pandas.frame Z -> Pandas.frame Z)
    (Hsort : Pandas.sorts_values sort_values)
    (tads : list tad_gene) (snp_df : list snp_row) :
  exists st,
    main_loop sort_values tads snp_df = ok st
    /\ forall k : string * string,
         In k (map (fun row => (custom_snp row, row_group row))
                   (rows (results_df st)))
         <-> In k (map near_key (nearest_gene_df st)).
Proof.
  destruct (main_loop_result_rows sort_values tads snp_df Hsort)
    as [st [Hrun [Hrows Hkeys]]].
  exists st. split; [exact Hrun|].
  intros k. rewrite Hrows, Hkeys, !in_map_iff. split.
  - intros [row [<- Hrow]]. apply in_flat_map in Hrow as [s [Hs Hrow]].
    apply in_map_iff in Hrow as [r [<- Hr]].
    exists s. split; [reflexivity|]. apply filter_In. split; [exact Hs|].
    destruct (matched tads s) eqn:E; [reflexivity|].
    apply matched_false_iff in E. rewrite E in Hr. destruct Hr.
  - intros [s [<- Hs]]. apply filter_In in Hs as [Hs Hm].
    destruct (assign_custom_snp_to_tad s tads) as [|r ta] eqn:E.
    + apply matched_false_iff in E. congruence.
    + exists (annotate s (group s) r). split; [reflexivity|].
      apply in_flat_map. exists s. split; [exact Hs|].
      rewrite E. now left.
Qed.

Lemma tables_name_the_same_snps_witness :
  Pandas.sorts_values Pandas.insertion_sort
  /\ exists st,
       main_loop Pandas.insertion_sort [gene_A; lnc_gene]
                 [snp_150; snp_nowhere] = ok st
       /\ forall k : string * string,
            In k (map (fun row => (custom_snp row, row_group row))
                      (rows (results_df st)))
            <-> In k (map near_key (nearest_gene_df st)).
Proof.
  split; [exact insertion_sort_sorts_values|].
  exact (tables_name_the_same_snps
           Pandas.insertion_sort insertion_sort_sorts_values
           [gene_A; lnc_gene] [snp_150; snp_nowhere]).
Defined.

Lemma filter_all {A : Type} (f : A -> bool) (l : list A) :
  (forall a, In a l -> f a = true) -> filter f l = l.
Proof.
  induction l as [|a l IH]; simpl; intros H; [reflexivity|].
  rewrite (H a (or_introl eq_refl)), IH; [reflexivity|].
  intros b Hb. apply H. now right.
Qed.

Lemma visits_single_group (g : string) (snp_df : list snp_row) :
  (forall s, In s snp_df -> group s = g) ->
  visits snp_df = map (pair g) snp_df.
Proof.
  intros Hg. unfold visits.
  destruct snp_df as [|s0 l]; [reflexivity|].
  assert (Hu : Pandas.unique (map group (s0 :: l)) = [g]).
  { simpl. rewrite (Hg s0 (or_introl eq_refl)). f_equal.
    apply filter_nil_iff. intros x Hx.
    apply (proj1 (unique_In _ _)) in Hx.
    apply in_map_iff in Hx as [s [<- Hs]].
    rewrite (Hg s (or_intror Hs)), String.eqb_refl. reflexivity. }
  rewrite Hu. cbn [flat_map]. rewrite app_nil_r. f_equal.
  apply filter_all. intros s Hs. rewrite (Hg s Hs). apply String.eqb_refl.
Qed.

(** X11: when every SNP of the table has the same group, both tables
    follow the order of the SNP table: the nearest-gene table lists the
    matched SNPs in table order and the matches table the rows of each SNP,
    SNP after SNP. *)
Theorem single_group_keeps_table_order
    (sort_values : Pandas.frame Z -> Pandas.frame Z)
    (Hsort : Pandas.sorts_values sort_values)
    (tads : list tad_gene) (snp_df : list snp_row) (g : string)
    (Hgroup : forall s, In s snp_df -> group s = g) :
  exists st,
    main_loop sort_values tads snp_df = ok st
    /\ map near_key (nearest_gene_df st)
       = map (fun s => (snp s, g)) (filter (matched tads) snp_df)
    /\ rows (results_df st)
       = flat_map (fun s => map (annotate s g)
                                (assign_custom_snp_to_tad s tads))
                  snp_df.
Proof.
  destruct (main_loop_effect sort_values Hsort tads snp_df)
    as [st [Hrun [Hkeys [Hrows _]]]].
  exists st. split; [exact Hrun|].
  rewrite (visits_single_group g snp_df Hgroup) in Hkeys, Hrows.
  simpl in Hkeys, Hrows. split.
  - rewrite Hkeys, filter_map_swap, map_map. reflexivity.
  - rewrite Hrows. clear. induction snp_df as [|s l IH]; simpl;
      [reflexivity | now rewrite IH].
Qed.

Lemma single_group_keeps_table_order_witness :
  Pandas.sorts_values Pandas.insertion_sort
  /\ (forall s, In s [snp_150; snp_nowhere] -> group s = "trait")
  /\ exists st,
       main_loop Pandas.insertion_sort [gene_A] [snp_150; snp_nowhere]
       = ok st
       /\ map near_key (nearest_gene_df st)
          = map (fun s => (snp s, "trait"))
                (filter (matched [gene_A]) [snp_150; snp_nowhere]).
Proof.
  assert (Hg : forall s, In s [snp_150; snp_nowhere] -> group s = "trait").
  { intros s [<- | [<- | []]]; reflexivity. }
  split; [exact insertion_sort_sorts_values|]. split; [exact Hg|].
  destruct (single_group_keeps_table_order
              Pandas.insertion_sort insertion_sort_sorts_values
              [gene_A] [snp_150; snp_nowhere] "trait" Hg)
    as [st [Hrun [Hkeys _]]].
  exists st. split; [exact Hrun | exact Hkeys].
Defined.

(** ** The output stage *)

(** X12: with both tables loaded, the run writes its files exactly when
    some SNP of the table lies in a TAD; when none does, it stops at the
    rename of the result columns with a [ValueError] for 12 columns and 13
    names. *)
Theorem files_written_iff_some_snp_matches
    (sort_values : Pandas.frame Z -> Pandas.frame Z)
    (Hsort : Pandas.sorts_values sort_values)
    (tads : list tad_gene) (snp_df : list snp_row) (out : string) :
  ((exists files, build_genelist sort_values tads snp_df out = ok files)
   <-> exists s, In s snp_df /\ assign_custom_snp_to_tad s tads <> [])
  /\ ((forall s, In s snp_df -> assign_custom_snp_to_tad s tads = []) ->
      build_genelist sort_values tads snp_df out = raise (ValueError 12 13)).
Proof.
  split; [|now apply build_genelist_no_match].
  split.
  - intros [files Hfiles].
    destruct (existsb (matched tads) snp_df) eqn:E.
    + apply existsb_exists in E as [s [Hs Hm]]. exists s.
      split; [exact Hs|]. intros Hnil.
      apply matched_false_iff in Hnil. congruence.
    + rewrite (build_genelist_no_match sort_values tads snp_df out Hsort)
        in Hfiles; [discriminate|].
      intros s Hs. apply matched_false_iff.
      destruct (matched tads s) eqn:Hm; [|reflexivity].
      assert (existsb (matched tads) snp_df = true)
        by (apply existsb_exists; now exists s).
      congruence.
  - intros [s [Hs Hm]].
    destruct (build_genelist_some_match sort_values tads snp_df out s
                Hsort Hs Hm) as [st [_ [Hfiles _]]].
    eexists. exact Hfiles.
Qed.

Lemma files_written_iff_some_snp_matches_witness :
  Pandas.sorts_values Pandas.insertion_sort
  /\ (forall s, In s [snp_nowhere] ->
                assign_custom_snp_to_tad s [gene_A] = [])
  /\ build_genelist Pandas.insertion_sort [gene_A] [snp_nowhere] "out.tsv"
     = raise (ValueError 12 13).
Proof.
  assert (Hn : forall s, In s [snp_nowhere] ->
                         assign_custom_snp_to_tad s [gene_A] = []).
  { intros s [<- | []]. reflexivity. }
  split; [exact insertion_sort_sorts_values|]. split; [exact Hn|].
  exact (proj2 (files_written_iff_some_snp_matches
                  Pandas.insertion_sort insertion_sort_sorts_values
                  [gene_A] [snp_nowhere] "out.tsv") Hn).
Defined.

(** X13: with both tables loaded and some SNP in a TAD, the run writes
    two files and no more: first the matches at the output path, under the
    thirteen fixed column names and without the index column, then the
    nearest genes at the derived path, under [MAPPED_GENE], [snp], [group]
    and with the index column; their rows are the two tables the loop
    left. *)
Theorem two_files_written_when_some_snp_matches
    (sort_values : Pandas.frame Z -> Pandas.frame Z)
    (Hsort : Pandas.sorts_values sort_values)
    (tads : list tad_gene) (snp_df : list snp_row) (out : string)
    (s0 : snp_row)
    (Hs0 : In s0 snp_df)
    (Hmatch : assign_custom_snp_to_tad s0 tads <> []) :
  exists st,
    main_loop sort_values tads snp_df = ok st
    /\ build_genelist sort_values tads snp_df out
       = ok [ {| path := out;
                 header := ["TADEnd"; "TADidx"; "TADStart"; "chrom";
                            "custom_snp"; "db"; "gene_name"; "gene_type";
                            "group"; "start"; "stop"; "strand"; "type"];
                 with_index := false;
                 body := ResultsBody (rows (results_df st)) |};
              {| path := fst (PosixPath.splitext out) ++ "_nearest_gene.tsv";
                 header := ["MAPPED_GENE"; "snp"; "group"];
                 with_index := true;
                 body := NearestBody (nearest_gene_df st) |} ]
    /\ rows (results_df st) <> []
    /\ nearest_gene_df st <> [].
Proof.
  destruct (build_genelist_some_match sort_values tads snp_df out s0
              Hsort Hs0 Hmatch) as [st [Hrun [Hfiles Hrows]]].
  exists st. split; [exact Hrun|]. split; [exact Hfiles|].
  destruct (main_loop_effect sort_values Hsort tads snp_df)
    as [st' [Hrun' [Hkeys _]]].
  rewrite Hrun in Hrun'. injection Hrun' as <-. simpl in Hkeys.
  assert (Hv : In (group s0, s0) (visits snp_df))
    by (apply visits_group; now split).
  split.
  - rewrite Hrows. intros Hnil.
    destruct (assign_custom_snp_to_tad s0 tads) as [|r ta] eqn:E;
      [now apply Hmatch|].
    assert (Hin : In (annotate s0 (group s0) r)
                     (flat_map
                        (fun v => map (annotate (snd v) (fst v))
                                    (assign_custom_snp_to_tad (snd v) tads))
                        (visits snp_df))).
    { apply in_flat_map. exists (group s0, s0). split; [exact Hv|].
      simpl. rewrite E. now left. }
    rewrite Hnil in Hin. destruct Hin.
  - intros Hnil. rewrite Hnil in Hkeys. simpl in Hkeys.
    symmetry in Hkeys. apply map_eq_nil in Hkeys.
    assert (Hin : In (group s0, s0)
                     (filter (fun v => matched tads (snd v))
                             (visits snp_df))).
    { apply filter_In. split; [exact Hv|]. simpl.
      destruct (matched tads s0) eqn:E; [reflexivity|].
      apply matched_false_iff in E. contradiction. }
    rewrite Hkeys in Hin. destruct Hin.
Qed.

Lemma two_files_written_when_some_snp_matches_witness :
  Pandas.sorts_values Pandas.insertion_sort
  /\ In snp_150 [snp_nowhere; snp_150]
  /\ assign_custom_snp_to_tad snp_150 [gene_A] <> []
  /\ exists st,
       main_loop Pandas.insertion_sort [gene_A] [snp_nowhere; snp_150]
       = ok st
       /\ rows (results_df st) <> [].
Proof.
  assert (H1 : In snp_150 [snp_nowhere; snp_150]) by (right; left; reflexivity).
  assert (H2 : assign_custom_snp_to_tad snp_150 [gene_A] <> [])
    by discriminate.
  split; [exact insertion_sort_sorts_values|].
  split; [exact H1|]. split; [exact H2|].
  destruct (two_files_written_when_some_snp_matches
              Pandas.insertion_sort insertion_sort_sorts_values
              [gene_A] [snp_nowhere; snp_150] "out.tsv" snp_150 H1 H2)
    as [st [Hrun [_ [Hrows _]]]].
  exists st. split; [exact Hrun | exact Hrows].
Defined.

(** ** The derived path *)

Lemma rfind_from_get (c : ascii) (s : string) (i found : Z) :
  PosixPath.rfind_from c s i found = found
  \/ (i <= PosixPath.rfind_from c s i found
      /\ get (Z.to_nat (PosixPath.rfind_from c s i found - i)) s = Some c).
Proof.
  revert i found; induction s as [|a s IH]; intros i found; simpl;
    [now left|].
  destruct (IH (i + 1) (if Ascii.eqb a c then i else found)) as [H | [Hle Hg]].
  - rewrite H. destruct (Ascii.eqb a c) eqn:E; [|now left].
    right. split; [lia|]. rewrite Z.sub_diag. simpl.
    apply Ascii.eqb_eq in E. now subst.
  - right. split; [lia|].
    set (r := PosixPath.rfind_from c s (i + 1)
                (if Ascii.eqb a c then i else found)) in *.
    replace (Z.to_nat (r - i)) with (S (Z.to_nat (r - (i + 1)))) by lia.
    exact Hg.
Qed.

Lemma slice_from_get (n : nat) (p : string) (c : ascii) :
  get n p = Some c -> exists rest, slice_from n p = String c rest.
Proof.
  revert p; induction n as [|n IH]; intros p; destruct p as [|a p]; simpl;
    try discriminate.
  - intros [= ->]. now exists p.
  - apply IH.
Qed.

(** The extension [splitext] cuts off is empty or begins with a dot. *)
Lemma splitext_extension (p : string) :
  snd (PosixPath.splitext p) = EmptyString
  \/ exists rest, snd (PosixPath.splitext p) = String "." rest.
Proof.
  unfold PosixPath.splitext.
  destruct (PosixPath.rfind "." p >? PosixPath.rfind "/" p) eqn:E;
    [|now left].
  rewrite Z.gtb_ltb in E. apply Z.ltb_lt in E.
  assert (Hdot : get (Z.to_nat (PosixPath.rfind "." p)) p = Some "."%char).
  { unfold PosixPath.rfind in *.
    destruct (rfind_from_get "." p 0 (-1)) as [H | [_ H]].
    - destruct (rfind_from_get "/" p 0 (-1)) as [H' | [H' _]]; lia.
    - now rewrite Z.sub_0_r in H. }
  generalize (Z.to_nat (PosixPath.rfind "." p
                        - (PosixPath.rfind "/" p + 1))).
  generalize (PosixPath.rfind "/" p + 1).
  intros i n; revert i; induction n as [|n IH]; intros i; simpl;
    [now left|].
  assert (Hcut : exists rest,
            slice_from (Z.to_nat (PosixPath.rfind "." p)) p
            = String "." rest) by now apply slice_from_get.
  destruct (get (Z.to_nat i) p) as [c|]; [|now right].
  destruct (Ascii.eqb c ".") eqn:Ec.
  - apply Ascii.eqb_eq in Ec; subst c. apply IH.
  - destruct c as [[] [] [] [] [] [] [] []];
      try (now right); discriminate.
Qed.

Lemma string_app_cancel (a b c : string) : a ++ b = a ++ c -> b = c.
Proof.
  induction a as [|x a IH]; simpl; [auto|].
  intros [= H]. now apply IH.
Qed.

(** X14: the path of the nearest-gene file is never the output path
    itself, whatever the output path: the second file does not overwrite
    the first. *)
Theorem nearest_gene_file_is_another_file (out : string) :
  output_nearest_gene_file out <> out.
Proof.
  unfold output_nearest_gene_file. intros H.
  rewrite <- (splitext_app out) in H at 2.
  apply string_app_cancel in H.
  destruct (splitext_extension out) as [E | [rest E]];
    rewrite E in H; discriminate.
Qed.

Lemma rfind_from_last (c : ascii) (s : string) (i found : Z) (k : nat) :
  get k s = Some c ->
  i + Z.of_nat k <= PosixPath.rfind_from c s i found.
Proof.
  revert i found k; induction s as [|a s IH]; intros i found k; simpl;
    [discriminate|].
  destruct k as [|k].
  - intros [= ->]. rewrite Ascii.eqb_refl.
    destruct (rfind_from_get c s (i + 1) i) as [H | [H _]]; lia.
  - intros Hk. specialize (IH (i + 1)
                             (if Ascii.eqb a c then i else found) k Hk).
    lia.
Qed.

Lemma get_slice_from (n k : nat) (p : string) :
  get k (slice_from n p) = get (n + k) p.
Proof.
  revert p; induction n as [|n IH]; intros p; [reflexivity|].
  destruct p as [|a p]; simpl; [now destruct k | apply IH].
Qed.

(** X15: the nearest-gene path is the output path with its extension
    replaced by [_nearest_gene.tsv].  The extension is what follows the
    root: either nothing, or a dot and characters that hold neither a dot
    nor a path separator. *)
Theorem nearest_gene_path_replaces_extension (out : string) :
  exists root ext,
    out = root ++ ext
    /\ output_nearest_gene_file out = root ++ "_nearest_gene.tsv"
    /\ (ext = EmptyString
        \/ exists rest,
             ext = String "." rest
             /\ forall k, get k rest <> Some "."%char
                          /\ get k rest <> Some "/"%char).
Proof.
  exists (fst (PosixPath.splitext out)), (snd (PosixPath.splitext out)).
  split; [symmetry; apply splitext_app|]. split; [reflexivity|].
  unfold PosixPath.splitext.
  destruct (PosixPath.rfind "." out >? PosixPath.rfind "/" out) eqn:E;
    [|now left].
  rewrite Z.gtb_ltb in E. apply Z.ltb_lt in E.
  set (d := PosixPath.rfind "." out) in *.
  set (sep := PosixPath.rfind "/" out) in *.
  assert (Hd : 0 <= d /\ get (Z.to_nat d) out = Some "."%char).
  { unfold d, sep, PosixPath.rfind in *.
    destruct (rfind_from_get "." out 0 (-1)) as [H | [H0 H]].
    - destruct (rfind_from_get "/" out 0 (-1)) as [H' | [H' _]]; lia.
    - rewrite Z.sub_0_r in H. split; [lia | exact H]. }
  destruct Hd as [Hd0 Hdot].
  assert (Hcut : exists rest,
            slice_from (Z.to_nat d) out = String "." rest
            /\ forall k, get k rest <> Some "."%char
                         /\ get k rest <> Some "/"%char).
  { destruct (slice_from_get _ _ _ Hdot) as [rest Hrest].
    exists rest. split; [exact Hrest|]. intros k.
    assert (Hk : get k rest = get (Z.to_nat d + S k) out).
    { rewrite <- get_slice_from, Hrest. reflexivity. }
    rewrite Hk. split; intros Hc.
    - pose proof (rfind_from_last "." out 0 (-1) _ Hc) as Hl.
      fold (PosixPath.rfind "." out) in Hl. fold d in Hl. lia.
    - pose proof (rfind_from_last "/" out 0 (-1) _ Hc) as Hl.
      fold (PosixPath.rfind "/" out) in Hl. fold sep in Hl. lia. }
  generalize (Z.to_nat (d - (sep + 1))). generalize (sep + 1).
  intros i n; revert i; induction n as [|n IH]; intros i; simpl;
    [now left|].
  destruct (get (Z.to_nat i) out) as [c|]; [|now right].
  destruct (Ascii.eqb c ".") eqn:Ec.
  - apply Ascii.eqb_eq in Ec; subst c. apply IH.
  - destruct c as [[] [] [] [] [] [] [] []];
      try (now right); discriminate.
Qed.

(** ** Row order and ties *)

Lemma no_protein_coding_no_name
    (sort_values : Pandas.frame Z -> Pandas.frame Z)
    (ta : list tad_gene) (pos : Z) :
  Pandas.sorts_values sort_values ->
  existsb is_protein_coding ta = false ->
  nearest_gene sort_values ta pos = ok EmptyString.
Proof.
  intros Hsort E. unfold nearest_gene, near_gene_idx.
  rewrite dist_df_nil; [reflexivity | assumption |].
  intros r Hr. destruct (is_protein_coding r) eqn:Hp; [|reflexivity].
  assert (existsb is_protein_coding ta = true)
    by (apply existsb_exists; now exists r).
  congruence.
Qed.

(** X16: the gene name reported for a matched set does not depend on the
    order of its rows nor on the sorting algorithm, provided that any two
    of its protein-coding rows that agree on both the gene distance and
    the start distance carry the same gene name. *)
Theorem nearest_gene_independent_of_row_order
    (sort1 sort2 : Pandas.frame Z -> Pandas.frame Z)
    (Hsort1 : Pandas.sorts_values sort1)
    (Hsort2 : Pandas.sorts_values sort2)
    (ta ta' : list tad_gene) (pos : Z)
    (Hperm : Permutation ta ta')
    (Htied :
       forall r r',
         In r ta -> In r' ta ->
         gene_type r = "protein_coding" -> gene_type r' = "protein_coding" ->
         gene_distance pos r = gene_distance pos r' ->
         Z.abs (start r - pos) = Z.abs (start r' - pos) ->
         gene_name r = gene_name r') :
  nearest_gene sort1 ta pos = nearest_gene sort2 ta' pos.
Proof.
  destruct (existsb is_protein_coding ta) eqn:E.
  - apply existsb_exists in E as [r0 [Hr0 Hp0]].
    pose proof (Permutation_in _ Hperm Hr0) as Hr0'.
    apply In_nth_error in Hr0 as [i0 Hi0].
    apply In_nth_error in Hr0' as [i0' Hi0'].
    destruct (nearest_gene_selected sort1 Hsort1 ta pos i0 r0 Hi0 Hp0)
      as [i1 [rest1 [sel1 [_ [Hn1 [Hp1 [Hname1 [_ [Hle1 Htie1]]]]]]]]].
    destruct (nearest_gene_selected sort2 Hsort2 ta' pos i0' r0 Hi0' Hp0)
      as [i2 [rest2 [sel2 [_ [Hn2 [Hp2 [Hname2 [_ [Hle2 Htie2]]]]]]]]].
    pose proof (nth_error_In _ _ Hn1) as Hin1.
    pose proof (nth_error_In _ _ Hn2) as Hin2'.
    pose proof (Permutation_in _ (Permutation_sym Hperm) Hin2') as Hin2.
    pose proof (Permutation_in _ Hperm Hin1) as Hin1'.
    destruct (In_nth_error _ _ Hin2) as [j2 Hj2].
    destruct (In_nth_error _ _ Hin1') as [j1 Hj1].
    assert (Hd : gene_distance pos sel1 = gene_distance pos sel2).
    { specialize (Hle1 j2 sel2 Hj2 Hp2). specialize (Hle2 j1 sel1 Hj1 Hp1).
      lia. }
    rewrite Hname1, Hname2. f_equal.
    apply Htied; try assumption; try (now apply is_protein_coding_iff).
    specialize (Htie1 j2 sel2 Hj2 Hp2 (eq_sym Hd)).
    specialize (Htie2 j1 sel1 Hj1 Hp1 Hd). lia.
  - assert (E' : existsb is_protein_coding ta' = false).
    { destruct (existsb is_protein_coding ta') eqn:E'; [|reflexivity].
      apply existsb_exists in E' as [r [Hr Hp]].
      assert (existsb is_protein_coding ta = true).
      { apply existsb_exists. exists r. split; [|exact Hp].
        apply (Permutation_in _ (Permutation_sym Hperm) Hr). }
      congruence. }
    now rewrite !no_protein_coding_no_name.
Qed.

Lemma nearest_gene_independent_of_row_order_witness :
  Pandas.sorts_values Pandas.insertion_sort
  /\ Permutation [near_stop; near_start] [near_start; near_stop]
  /\ nearest_gene Pandas.insertion_sort [near_stop; near_start] 150
     = nearest_gene Pandas.insertion_sort [near_start; near_stop] 150.
Proof.
  assert (Hp : Permutation [near_stop; near_start] [near_start; near_stop])
    by apply perm_swap.
  split; [exact insertion_sort_sorts_values|]. split; [exact Hp|].
  apply (nearest_gene_independent_of_row_order
           Pandas.insertion_sort Pandas.insertion_sort
           insertion_sort_sorts_values insertion_sort_sorts_values
           [near_stop; near_start] [near_start; near_stop] 150 Hp).
  intros r r' [<- | [<- | []]] [<- | [<- | []]] _ _ _ Hs;
    try reflexivity; vm_compute in Hs; discriminate.
Defined.
